(** * Bot-detection middleware: a shallow embedding and its properties

    The development embeds the two revisions of the anti-bot middleware that
    live in the repository:

    - [AntiBot]  : [src/server/middleware/antiBot.js] (the current revision);
    - [Part001]  : [unnamed/part_001] (the earlier revision of the same
                   module, which also owns the periodic cache sweeper).

    Conventions of the embedding.

    - JavaScript strings that reach this code are header values, paths and
      addresses: sequences of Latin-1 code units.  They are [string]s.
    - [Date.now()] is an input of every stateful operation ([now : Z],
      milliseconds).
    - Scores of the environment rubric are integers ([Z]).  Confidences and
      factors are JavaScript numbers; they are embedded as exact rationals
      ([Q]), so [Math.sqrt(variance) < 100] is written [variance < 100 * 100].
    - A JavaScript exception is the [Throw] outcome of [Result]; mutations
      that happened before the exception are kept in the returned store.
      Calling a method that a class does not define is such an exception.
    - [crypto.createHash('sha256')...digest('hex')] is a parameter of the
      sections that need it. *)

From Stdlib Require Import ZArith QArith Qabs Qminmax String Ascii List Bool Lia Lqa.
From stdpp Require Import base option list sorting gmap strings fin_maps.

Import ListNotations.
Local Open Scope string_scope.
Local Open Scope Z_scope.

(** ** JavaScript values and strings *)

Module JS.

(** Outcome of a call: a value, or a thrown [TypeError]. *)
Inductive Result (A : Type) : Type :=
| Ok (a : A)
| Throw (msg : string).
Arguments Ok {A} a.
Arguments Throw {A} msg.

Definition bind {A B} (r : Result A) (k : A -> Result B) : Result B :=
  match r with
  | Ok a => k a
  | Throw m => Throw m
  end.

Definition isOk {A} (r : Result A) : bool :=
  match r with Ok _ => true | Throw _ => false end.

(** [Boolean(v)] for a value that is a string or [undefined]. *)
Definition truthy (v : option string) : bool :=
  match v with
  | Some (String _ _) => true
  | _ => false
  end.

(** [v || ''] *)
Definition orEmpty (v : option string) : string :=
  match v with Some s => s | None => EmptyString end.

Definition code (c : ascii) : N := N_of_ascii c.

Definition inRange (lo hi : N) (c : ascii) : bool :=
  (N.leb lo (code c) && N.leb (code c) hi)%bool.

(** [String.prototype.toLowerCase] on Latin-1 code units: [A-Z], and
    U+00C0..U+00DE except the multiplication sign U+00D7. *)
Definition lowerChar (c : ascii) : ascii :=
  if (inRange 65 90 c || (inRange 192 222 c && negb (N.eqb (code c) 215)))%bool
  then ascii_of_N (code c + 32)
  else c.

Fixpoint toLowerCase (s : string) : string :=
  match s with
  | EmptyString => EmptyString
  | String c s' => String (lowerChar c) (toLowerCase s')
  end.

Fixpoint startsWith (s p : string) : bool :=
  match p, s with
  | EmptyString, _ => true
  | String _ _, EmptyString => false
  | String a p', String b s' => (Ascii.eqb a b && startsWith s' p')%bool
  end.

(** [s.includes(sub)] *)
Fixpoint includes (s sub : string) : bool :=
  (startsWith s sub ||
   match s with
   | EmptyString => false
   | String _ s' => includes s' sub
   end)%bool.

(** [Array.prototype.join] *)
Fixpoint join (sep : string) (l : list string) : string :=
  match l with
  | [] => EmptyString
  | [x] => x
  | x :: rest => x ++ sep ++ join sep rest
  end.

(** The double-quote character. *)
Definition dq : ascii := Eval cbv in ascii_of_N 34.

Definition quoted (s : string) : string := String dq (s ++ String dq EmptyString).

End JS.

Import JS.

(** ** Regular expressions

    The regular expressions of the source use literals, classes, [.],
    alternation, [?], [+], [*] and the anchors [^] and [$] at the two ends of
    the pattern.  [RegExp.prototype.test] only asks whether some match
    exists, so a pattern denotes a regular language; it is decided with
    derivatives. *)

Module Regex.

Inductive re : Type :=
| Void
| Eps
| Cls (p : ascii -> bool)
| Seq (a b : re)
| Alt (a b : re)
| Star (a : re).

Fixpoint nullable (r : re) : bool :=
  match r with
  | Void => false
  | Eps => true
  | Cls _ => false
  | Seq a b => nullable a && nullable b
  | Alt a b => nullable a || nullable b
  | Star _ => true
  end.

Definition seq (a b : re) : re :=
  match a, b with
  | Void, _ => Void
  | _, Void => Void
  | Eps, _ => b
  | _, Eps => a
  | _, _ => Seq a b
  end.

Definition alt (a b : re) : re :=
  match a, b with
  | Void, _ => b
  | _, Void => a
  | _, _ => Alt a b
  end.

Fixpoint deriv (c : ascii) (r : re) : re :=
  match r with
  | Void => Void
  | Eps => Void
  | Cls p => if p c then Eps else Void
  | Seq a b =>
      if nullable a then alt (seq (deriv c a) b) (deriv c b)
      else seq (deriv c a) b
  | Alt a b => alt (deriv c a) (deriv c b)
  | Star a => seq (deriv c a) (Star a)
  end.

Fixpoint matches (r : re) (s : string) : bool :=
  match s with
  | EmptyString => nullable r
  | String c s' => matches (deriv c r) s'
  end.

(** The language of an expression: the strings it matches as a whole. *)
Inductive lang : re -> string -> Prop :=
| lang_eps : lang Eps EmptyString
| lang_cls p c : p c = true -> lang (Cls p) (String c EmptyString)
| lang_seq a b s t : lang a s -> lang b t -> lang (Seq a b) (s ++ t)%string
| lang_alt_l a b s : lang a s -> lang (Alt a b) s
| lang_alt_r a b s : lang b s -> lang (Alt a b) s
| lang_star_nil a : lang (Star a) EmptyString
| lang_star_more a s t :
    lang a s -> lang (Star a) t -> lang (Star a) (s ++ t)%string.

(** Pattern atoms. *)
Definition chr (c : ascii) : re := Cls (Ascii.eqb c).
Definition anyChar : re := Cls (fun _ => true).
(** [.] : anything but a line terminator. *)
Definition dot : re :=
  Cls (fun c => negb (N.eqb (code c) 10 || N.eqb (code c) 13)).
Definition digit (c : ascii) : bool := inRange 48 57 c.
Definition plus (r : re) : re := Seq r (Star r).
Definition opt (r : re) : re := Alt r Eps.

Fixpoint lit (s : string) : re :=
  match s with
  | EmptyString => Eps
  | String c s' => Seq (chr c) (lit s')
  end.

Fixpoint alts (l : list re) : re :=
  match l with
  | [] => Void
  | [r] => r
  | r :: rest => Alt r (alts rest)
  end.

(** The classes [\d.], [\d._], [\d_], and anything but a double quote. *)
Definition digitDot : re := Cls (fun c => digit c || Ascii.eqb c "."%char).
Definition digitDotUnderscore : re :=
  Cls (fun c => digit c || Ascii.eqb c "."%char || Ascii.eqb c "_"%char).
Definition digitUnderscore : re :=
  Cls (fun c => digit c || Ascii.eqb c "_"%char).
Definition notQuote : re := Cls (fun c => negb (Ascii.eqb c dq)).

(** A pattern: its body, the [i] flag, and whether the body is enclosed in
    [^] and [$].  The literals of every [i]-flagged pattern of the source
    are lower-case ASCII, so ignoring case is lower-casing the subject. *)
Record pattern : Type := Pattern {
  body : re;
  ignoreCase : bool;
  anchorStart : bool;
  anchorEnd : bool
}.

Definition search (body : re) : pattern := Pattern body false false false.
Definition searchI (body : re) : pattern := Pattern body true false false.
Definition whole (body : re) : pattern := Pattern body false true true.
Definition prefix (body : re) : pattern := Pattern body false true false.

(** [pattern.test(s)] *)
Definition test (p : pattern) (s : string) : bool :=
  let pre := if anchorStart p then Eps else Star anyChar in
  let post := if anchorEnd p then Eps else Star anyChar in
  matches (Seq pre (Seq (body p) post))
          (if ignoreCase p then toLowerCase s else s).

End Regex.

(** ** Requests, events and rational helpers shared by both revisions *)

Module Common.

(** The request descriptor.  [oid] is the identity of the request object:
    the [WeakSet] of legitimate clients is keyed by object identity. *)
Record Request : Type := mkRequest {
  oid : nat;
  headers : gmap string string;
  path : string;
  method : string;
  ip : option string
}.

(** The projection built by [getRelevantHeaders].  Revision [Part001]
    builds no [platform] field, which reads as [undefined] there. *)
Record RelevantHeaders : Type := mkRelevant {
  encoding : option string;
  language : option string;
  cache : option string;
  connection : option string;
  platform : option string
}.

(** One element of [clientData.patterns]. *)
Record Event : Type := mkEvent {
  timestamp : Z;
  ev_path : string;
  ev_method : string;
  ev_headers : RelevantHeaders
}.

(** [.filter(Boolean)] on an array of strings and [undefined]s. *)
Fixpoint filterBoolean (l : list (option string)) : list string :=
  match l with
  | [] => []
  | Some (String c s) :: rest => String c s :: filterBoolean rest
  | _ :: rest => filterBoolean rest
  end.

(** [a !== b] on values that are strings or [undefined]. *)
Definition strictNe (a b : option string) : bool :=
  match a, b with
  | Some x, Some y => negb (String.eqb x y)
  | None, None => false
  | _, _ => true
  end.

Definition Qltb (x y : Q) : bool := negb (Qle_bool y x).
Definition Qgeb (x y : Q) : bool := Qle_bool y x.

Definition ofZ (z : Z) : Q := inject_Z z.
Definition ofLen {A} (l : list A) : Q := inject_Z (Z.of_nat (length l)).

(** [arr.reduce((a, b) => a + b, 0)] *)
Definition Qsum (l : list Q) : Q := fold_left Qplus l 0%Q.

(** The intervals between consecutive timestamps:
    [patterns[i].timestamp - patterns[i-1].timestamp] for [i >= 1]. *)
Fixpoint intervalsOf (patterns : list Event) : list Z :=
  match patterns with
  | p :: ((q :: _) as rest) => (timestamp q - timestamp p) :: intervalsOf rest
  | _ => []
  end.

(** Retention constants (milliseconds). *)
Definition ANALYSIS_WINDOW : Z := 30 * 1000.
Definition PATTERN_MEMORY : Z := 5 * 60 * 1000.
Definition CACHE_CLEANUP_INTERVAL : Z := 60 * 1000.

(** [patterns.filter(p => now - p.timestamp < PATTERN_MEMORY)] *)
Definition inWindow (now : Z) (p : Event) : bool :=
  now - timestamp p <? PATTERN_MEMORY.

Definition prune (now : Z) (patterns : list Event) : list Event :=
  List.filter (inWindow now) patterns.

Inductive Reason : Type :=
| invalid_browser_environment
| suspicious_behavior
| combined_factors.

(** [details: { timing, navigation, headers }] *)
Record Factors : Type := mkFactors {
  f_timing : Q;
  f_navigation : Q;
  f_headers : Q
}.


(** What the pruning filter keeps: events younger than the window. *)
Definition fresh (now : Z) (ps : list Event) : Prop :=
  Forall (fun e => now - timestamp e < PATTERN_MEMORY) ps.

(** No event lies after [clock]. *)
Definition timely (clock : Z) (ps : list Event) : Prop :=
  Forall (fun e => timestamp e <= clock) ps.

(** The event sequence is ordered by time. *)
Definition ordered (ps : list Event) : Prop :=
  Sorted Z.le (map timestamp ps).

End Common.

Import Common.

(** ** The earlier revision: [unnamed/part_001] *)

Module Part001.

(** *** BrowserVerification *)

Definition fingerprintHeaders : list string :=
  ["user-agent"; "accept"; "accept-language"; "accept-encoding";
   "sec-ch-ua"; "sec-ch-ua-platform";
   "sec-fetch-dest"; "sec-fetch-mode"; "sec-fetch-site"].

Definition browserComponents (req : Request) : list string :=
  filterBoolean (map (fun name => headers req !! name) fingerprintHeaders).

Definition requiredHeaders : list string :=
  ["sec-ch-ua"; "sec-ch-ua-platform"; "sec-ch-ua-mobile";
   "sec-fetch-site"; "sec-fetch-mode"; "sec-fetch-dest";
   "accept"; "accept-encoding"; "accept-language"].

Definition quotedRun : Regex.re :=
  Regex.Seq (Regex.chr dq) (Regex.Seq (Regex.Star Regex.notQuote) (Regex.chr dq)).

(** The [patterns] table of [validateHeaderFormat]. *)
Definition formatPatterns : list (string * Regex.pattern) :=
  [ ("sec-ch-ua",
     Regex.search (Regex.Alt quotedRun (Regex.Seq (Regex.lit "v=") quotedRun)));
    ("sec-ch-ua-mobile",
     Regex.whole (Regex.Seq (Regex.chr "?")
                    (Regex.Cls (fun c => Ascii.eqb c "0" || Ascii.eqb c "1"))));
    ("sec-ch-ua-platform", Regex.search quotedRun);
    ("sec-fetch-site",
     Regex.whole (Regex.alts [Regex.lit "none"; Regex.lit "same-origin";
                              Regex.lit "same-site"; Regex.lit "cross-site"]));
    ("sec-fetch-mode",
     Regex.whole (Regex.alts [Regex.lit "navigate"; Regex.lit "same-origin";
                              Regex.lit "no-cors"; Regex.lit "cors"]));
    ("sec-fetch-dest",
     Regex.whole (Regex.alts [Regex.lit "document"; Regex.lit "script";
                              Regex.lit "style"; Regex.lit "image";
                              Regex.lit "font"])) ].

Fixpoint assoc {A} (k : string) (l : list (string * A)) : option A :=
  match l with
  | [] => None
  | (k', v) :: rest => if String.eqb k k' then Some v else assoc k rest
  end.

Definition validateHeaderFormat (header value : string) : bool :=
  match assoc header formatPatterns with
  | None => true
  | Some p => Regex.test p value
  end.

Definition uaPatterns : list Regex.pattern :=
  [ Regex.search (Regex.Seq (Regex.lit "Chrome/") (Regex.plus Regex.digitDot));
    Regex.search (Regex.Seq (Regex.lit "Firefox/") (Regex.plus Regex.digitDot));
    Regex.search (Regex.Seq (Regex.lit "Safari/") (Regex.plus Regex.digitDot));
    Regex.search (Regex.Seq (Regex.lit "Edge/") (Regex.plus Regex.digitDot));
    Regex.search (Regex.lit "Mobile");
    Regex.search (Regex.Seq (Regex.lit "Windows NT ") (Regex.plus Regex.digitDot));
    Regex.search (Regex.Seq (Regex.lit "Macintosh")
                    (Regex.Seq (Regex.Star Regex.dot)
                       (Regex.Seq (Regex.lit "Mac OS X ")
                          (Regex.plus Regex.digitUnderscore))));
    Regex.search (Regex.lit "Linux");
    Regex.search (Regex.Seq (Regex.lit "Android ") (Regex.plus Regex.digitDot));
    Regex.search (Regex.Seq (Regex.lit "iPhone OS ")
                    (Regex.plus Regex.digitUnderscore)) ].

(** Ten independent tests, five points each. *)
Definition analyzeUserAgent (ua : string) : Z :=
  fold_left (fun score p => if Regex.test p ua then score + 5 else score)
            uaPatterns 0.

(** One turn of the loop over [requiredHeaders]. *)
Definition headerPoints (h : gmap string string) (score : Z) (header : string) : Z :=
  if truthy (h !! header)
  then
    let score := score + 10 in
    if validateHeaderFormat header (orEmpty (h !! header))
    then score + 5 else score
  else score.

Record EnvCheck : Type := mkEnvCheck {
  valid : bool;
  score : Z;
  maxScore : Z
}.

Definition validateBrowserEnvironment (req : Request) : EnvCheck :=
  let h := headers req in
  let score := fold_left (headerPoints h) requiredHeaders 0 in
  let score :=
    if truthy (h !! "user-agent")
    then score + analyzeUserAgent (orEmpty (h !! "user-agent"))
    else score in
  {| valid := 70 <=? score; score := score; maxScore := 100 |}.

(** *** BehaviorAnalysis *)

Record ClientData : Type := mkClientData {
  patterns : list Event;
  lastSeen : Z;
  cd_score : Q
}.

(** [{ humanLike, confidence, details }]; [details] is absent from the
    object returned for fewer than two patterns. *)
Record Analysis : Type := mkAnalysis {
  humanLike : bool;
  confidence : Q;
  details : option Factors
}.

Definition getRelevantHeaders (h : gmap string string) : RelevantHeaders :=
  {| encoding := h !! "accept-encoding";
     language := h !! "accept-language";
     cache := h !! "cache-control";
     connection := h !! "connection";
     platform := None |}.

(** [Math.min(variability / 1000, 1)], where [variability] is the mean
    absolute deviation of the intervals.  The caller guarantees at least two
    patterns, hence a non-empty interval array. *)
Definition analyzeTimingPatterns (ps : list Event) : Q :=
  let intervals := map ofZ (intervalsOf ps) in
  let avgInterval := (Qsum intervals / ofLen intervals)%Q in
  let variability :=
    (fold_left (fun acc interval => acc + Qabs (interval - avgInterval))
               intervals 0 / ofLen intervals)%Q in
  Qmin (variability / 1000) 1.

Definition validSequences : list Regex.pattern :=
  [ Regex.whole (Regex.lit "/");
    Regex.whole (Regex.lit "/check-ip");
    Regex.prefix (Regex.lit "/loading");
    Regex.prefix (Regex.lit "/review") ].

Definition hasNormalNavigationFlow (paths : list string) : bool :=
  let matchCount :=
    fold_left (fun n p =>
                 if existsb (fun pat => Regex.test pat p) validSequences
                 then n + 1 else n) paths 0 in
  Qgeb (ofZ matchCount / ofLen paths) (7 # 10).

Definition analyzeNavigationPatterns (ps : list Event) : Q :=
  let flows := map ev_path ps in
  let score := 1%Q in
  let uniquePaths := size (list_to_set (C := gset string) flows) in
  let score :=
    if (Nat.eqb uniquePaths 1 && Nat.ltb 3 (length ps))%bool
    then (score * (5 # 10))%Q else score in
  let score :=
    if negb (hasNormalNavigationFlow flows)
    then (score * (7 # 10))%Q else score in
  score.

(** The loop over consecutive pairs of [headerSets]. *)
Fixpoint headerDecay (consistency : Q) (hs : list RelevantHeaders) : Q :=
  match hs with
  | prev :: ((curr :: _) as rest) =>
      let c1 := if strictNe (language prev) (language curr)
                then (consistency * (8 # 10))%Q else consistency in
      let c2 := if strictNe (encoding prev) (encoding curr)
                then (c1 * (8 # 10))%Q else c1 in
      headerDecay c2 rest
  | _ => consistency
  end.

Definition analyzeHeaderConsistency (ps : list Event) : Q :=
  headerDecay 1 (map ev_headers ps).

Definition analyzeBehaviorPatterns (ps : list Event) : Analysis :=
  if Nat.ltb (length ps) 2
  then {| humanLike := true; confidence := 5 # 10; details := None |}
  else
    let timing := analyzeTimingPatterns ps in
    let navigation := analyzeNavigationPatterns ps in
    let headers := analyzeHeaderConsistency ps in
    let confidence := ((timing + navigation + headers) / 3)%Q in
    {| humanLike := Qgeb confidence (7 # 10);
       confidence := confidence;
       details := Some (mkFactors timing navigation headers) |}.

Definition calculateBehaviorScore (confidence : Q) : Q := (confidence * 100)%Q.

Definition newEvent (now : Z) (req : Request) : Event :=
  {| timestamp := now;
     ev_path := path req;
     ev_method := method req;
     ev_headers := getRelevantHeaders (headers req) |}.

(** [BehaviorAnalysis.analyze]: the profile is fetched or created, the new
    event pushed, the window pruned, the analysis stored with [lastSeen]. *)
Definition analyze (now : Z) (req : Request) (fingerprint : string)
    (behaviorCache : gmap string ClientData) : gmap string ClientData * Analysis :=
  let clientData :=
    match behaviorCache !! fingerprint with
    | Some d => d
    | None => {| patterns := []; lastSeen := now; cd_score := 0 |}
    end in
  let pushed := (patterns clientData ++ [newEvent now req])%list in
  let kept := prune now pushed in
  let analysis := analyzeBehaviorPatterns kept in
  let clientData' :=
    {| patterns := kept;
       lastSeen := now;
       cd_score := calculateBehaviorScore (confidence analysis) |} in
  (<[fingerprint := clientData']> behaviorCache, analysis).

(** The body of the [setInterval] callback: every entry is visited once and
    deleted when it was last seen more than [PATTERN_MEMORY] ago. *)
Definition sweepEntry (now : Z) (behaviorCache : gmap string ClientData)
    (entry : string * ClientData) : gmap string ClientData :=
  if PATTERN_MEMORY <? now - lastSeen (snd entry)
  then delete (fst entry) behaviorCache
  else behaviorCache.

Definition sweep (now : Z) (behaviorCache : gmap string ClientData)
    : gmap string ClientData :=
  fold_left (sweepEntry now) (map_to_list behaviorCache) behaviorCache.

(** *** detectBot *)

Record Verdict : Type := mkVerdict {
  isBot : bool;
  v_confidence : Q;
  reason : option Reason;
  v_score : option Z;
  v_details : option Factors;
  v_fingerprint : option string
}.

Record State : Type := mkState {
  behaviorCache : gmap string ClientData;
  legitimateClients : gset nat
}.

Section WithHash.

(** [s => crypto.createHash('sha256').update(s).digest('hex')] *)
Variable sha256_hex : string -> string.

Definition generateFingerprint (req : Request) : string :=
  sha256_hex (join ":|:" (browserComponents req)).

Definition detectBot (now : Z) (req : Request) (st : State) : State * Verdict :=
  let fingerprint := generateFingerprint req in
  if bool_decide (oid req ∈ legitimateClients st)
  then (st, mkVerdict false 1 None None None None)
  else
    let browserCheck := validateBrowserEnvironment req in
    if negb (valid browserCheck)
    then (st, mkVerdict true (9 # 10) (Some invalid_browser_environment)
                (Some (score browserCheck)) None None)
    else
      let '(cache', behavior) := analyze now req fingerprint (behaviorCache st) in
      if negb (humanLike behavior)
      then (mkState cache' (legitimateClients st),
            mkVerdict true (confidence behavior) (Some suspicious_behavior)
              None (details behavior) None)
      else
        (mkState cache' ({[ oid req ]} ∪ legitimateClients st),
         mkVerdict false (confidence behavior) None None None
           (Some fingerprint)).

End WithHash.

(** *** The store over time

    [reachable clock cache]: [cache] is the store after some sequence of
    [analyze] calls and sweeper runs, started from the empty map, whose clock
    readings never decrease; [clock] is the latest reading. *)
Inductive reachable : Z -> gmap string ClientData -> Prop :=
| reach_start clock :
    reachable clock ∅
| reach_analyze clock cache now req fingerprint :
    reachable clock cache -> clock <= now ->
    reachable now (fst (analyze now req fingerprint cache))
| reach_sweep clock cache now :
    reachable clock cache -> clock <= now ->
    reachable now (sweep now cache).

End Part001.

(** ** The current revision: [src/server/middleware/antiBot.js] *)

Module AntiBot.

(** *** BrowserVerification *)

Definition fingerprintHeaders : list string :=
  ["user-agent"; "accept"; "accept-language"; "accept-encoding";
   "connection"; "upgrade-insecure-requests"; "viewport-width";
   "sec-ch-ua-full-version-list"; "sec-ch-ua-platform-version"].

(** The selected components, the remote address last, absent ones dropped. *)
Definition components (req : Request) : list string :=
  filterBoolean
    (map (fun name => headers req !! name) fingerprintHeaders ++ [ip req])%list.

Definition points (present : bool) (n : Z) : Z := if present then n else 0.

Definition calculateHeaderScore (h : gmap string string) : Z :=
  let score := 0 in
  let score := score + points (truthy (h !! "user-agent")) 20 in
  let score := score + points (truthy (h !! "accept")) 10 in
  let score := score + points (truthy (h !! "accept-language")) 10 in
  let score := score + points (truthy (h !! "accept-encoding")) 10 in
  let score := score + points (truthy (h !! "sec-fetch-site")) 5 in
  let score := score + points (truthy (h !! "sec-fetch-mode")) 5 in
  let score := score + points (truthy (h !! "sec-fetch-dest")) 5 in
  score.

Definition botIndicators : list string :=
  ["selenium"; "webdriver"; "headless"; "phantom";
   "puppeteer"; "playwright"; "cypress"; "automation";
   "metamask"; "bot"; "crawler"; "spider"].

(** [headers['user-agent']?.toLowerCase() || ''] *)
Definition lowerOrEmpty (v : option string) : string :=
  match v with
  | Some s => toLowerCase s
  | None => EmptyString
  end.

Definition validateSpecialHeaders (h : gmap string string) : Z :=
  let userAgent := lowerOrEmpty (h !! "user-agent") in
  let score :=
    fold_left (fun score indicator =>
                 if includes userAgent indicator then score - 50 else score)
              botIndicators 0 in
  if truthy (h !! "sec-ch-ua")
  then
    let ua := toLowerCase (orEmpty (h !! "sec-ch-ua")) in
    if (includes ua (quoted "chromium")
        && negb (includes (toLowerCase userAgent) "chrome"))%bool
    then score - 30 else score
  else score.

Definition browsers : list Regex.pattern :=
  [ Regex.searchI (Regex.Seq (Regex.lit "chrome/") (Regex.plus Regex.digitDot));
    Regex.searchI (Regex.Seq (Regex.lit "firefox/") (Regex.plus Regex.digitDot));
    Regex.searchI (Regex.Seq (Regex.lit "safari/") (Regex.plus Regex.digitDot));
    Regex.searchI (Regex.Seq (Regex.lit "edg")
                     (Regex.Seq (Regex.opt (Regex.chr "e"))
                        (Regex.Seq (Regex.chr "/") (Regex.plus Regex.digitDot))));
    Regex.searchI (Regex.Seq (Regex.lit "opr/") (Regex.plus Regex.digitDot)) ].

Definition operatingSystems : list Regex.pattern :=
  [ Regex.searchI (Regex.Seq (Regex.lit "windows nt ") (Regex.plus Regex.digitDot));
    Regex.searchI (Regex.Seq (Regex.lit "macintosh")
                     (Regex.Seq (Regex.Star Regex.dot)
                        (Regex.Seq (Regex.lit "mac os x ")
                           (Regex.plus Regex.digitDotUnderscore))));
    Regex.searchI (Regex.Seq (Regex.lit "iphone os ")
                     (Regex.plus Regex.digitDotUnderscore));
    Regex.searchI (Regex.Seq (Regex.lit "android ") (Regex.plus Regex.digitDot));
    Regex.searchI (Regex.lit "linux") ].

(** [/(\d+\.)+\d+/] *)
Definition versionPattern : Regex.pattern :=
  Regex.search
    (Regex.Seq
       (Regex.plus (Regex.Seq (Regex.plus (Regex.Cls Regex.digit)) (Regex.chr ".")))
       (Regex.plus (Regex.Cls Regex.digit))).

(** [Object.entries(table).some(...)] adds its points once, at the first
    pattern that matches. *)
Definition analyzeUserAgent (ua : option string) : Z :=
  if negb (truthy ua) then -50
  else
    let ua := orEmpty ua in
    let score := 0 in
    let lowerUA := toLowerCase ua in
    let score :=
      score + points (existsb (fun p => Regex.test p lowerUA) browsers) 15 in
    let score :=
      score + points (existsb (fun p => Regex.test p lowerUA) operatingSystems) 15 in
    let score := score + points (Regex.test versionPattern ua) 10 in
    score.

(** [/mobile|android|iphone|ipad|ipod/i] *)
Definition mobilePattern : Regex.pattern :=
  Regex.searchI (Regex.alts [Regex.lit "mobile"; Regex.lit "android";
                             Regex.lit "iphone"; Regex.lit "ipad";
                             Regex.lit "ipod"]).

Definition checkConsistency (h : gmap string string) : Z :=
  let score := 0 in
  let score :=
    if (truthy (h !! "sec-ch-ua-platform") && truthy (h !! "user-agent"))%bool
    then
      let platform := toLowerCase (orEmpty (h !! "sec-ch-ua-platform")) in
      let ua := toLowerCase (orEmpty (h !! "user-agent")) in
      let score :=
        score + points (includes platform "windows" && includes ua "windows") 10 in
      let score :=
        score + points (includes platform "mac" && includes ua "macintosh") 10 in
      let score :=
        score + points (includes platform "android" && includes ua "android") 10 in
      let score :=
        score + points (includes platform "ios" && includes ua "iphone") 10 in
      score
    else score in
  if truthy (h !! "sec-ch-ua-mobile")
  then
    let isMobile := bool_decide (h !! "sec-ch-ua-mobile" = Some "?1") in
    let ua := lowerOrEmpty (h !! "user-agent") in
    let uaIndicatesMobile := Regex.test mobilePattern ua in
    score + points (Bool.eqb isMobile uaIndicatesMobile) 10
  else score.

Record EnvDetails : Type := mkEnvDetails {
  d_headers : option string;
  d_score : Z
}.

Record EnvCheck : Type := mkEnvCheck {
  valid : bool;
  score : Z;
  maxScore : Z;
  env_details : EnvDetails
}.

Definition validateBrowserEnvironment (req : Request) : EnvCheck :=
  let h := headers req in
  let score := 0 in
  let score := score + calculateHeaderScore h in
  let score := score + analyzeUserAgent (h !! "user-agent") in
  let score := score + checkConsistency h in
  let score := score + validateSpecialHeaders h in
  {| valid := 40 <=? score;
     score := score;
     maxScore := 100;
     env_details := mkEnvDetails (h !! "user-agent") score |}.

(** *** BehaviorAnalysis *)

Record ClientData : Type := mkClientData {
  patterns : list Event;
  lastSeen : Z;
  cd_score : Q;
  cd_suspicious : Z
}.

(** The object built by [analyzeBehaviorPatterns]. *)
Record Analysis : Type := mkAnalysis {
  confidence : Q;
  suspicious : Z;
  details : Factors
}.

(** The object returned by [analyze]. *)
Record Behavior : Type := mkBehavior {
  humanLike : bool;
  b_confidence : Q;
  b_details : Factors;
  b_suspicious : Z
}.

Definition getRelevantHeaders (h : gmap string string) : RelevantHeaders :=
  {| encoding := h !! "accept-encoding";
     language := h !! "accept-language";
     cache := h !! "cache-control";
     connection := h !! "connection";
     platform := h !! "sec-ch-ua-platform" |}.

Definition calculateSuspiciousScore (timing navigation headers : Q) : Z :=
  let score := 0 in
  let score := if Qltb timing (3 # 10) then score + 1 else score in
  let score := if Qltb navigation (3 # 10) then score + 1 else score in
  let score := if Qltb headers (3 # 10) then score + 1 else score in
  score.

(** [stdDev < 100] is decided on the variance. *)
Definition analyzeTimingPatterns (ps : list Event) : Q :=
  let intervals := map ofZ (intervalsOf ps) in
  if Nat.eqb (length intervals) 0 then 1%Q
  else
    let mean := (Qsum intervals / ofLen intervals)%Q in
    let variance :=
      (fold_left (fun a b => a + (b - mean) * (b - mean)) intervals 0
       / ofLen intervals)%Q in
    let isRegular := Qltb variance (100 * 100) in
    let hasTooFast := existsb (fun i => Qltb i 50) intervals in
    if (isRegular && hasTooFast)%bool then 0%Q
    else if isRegular then (3 # 10)%Q
    else if hasTooFast then (5 # 10)%Q
    else 1%Q.

(** The loop of [calculateRepetition]: positions [i >= 2] whose path equals
    the two before it. *)
Fixpoint repetitionsOf (paths : list string) : Z :=
  match paths with
  | a :: ((b :: c :: _) as rest) =>
      (if (String.eqb c b && String.eqb b a)%bool then 1 else 0)
      + repetitionsOf rest
  | _ => 0
  end.

Definition calculateRepetition (paths : list string) : Q :=
  if Nat.ltb (length paths) 3 then 0%Q
  else
    Qmin (ofZ (repetitionsOf paths) / ofZ (Z.of_nat (length paths) - 2)) 1.

Definition validFlows : list (list string) :=
  [ ["/"];
    ["/"; "/check-ip"];
    ["/check-ip"; "/loading"];
    ["/loading"; "/review"];
    ["/review"; "/complete"] ].

Definition undefinedIncludes : string :=
  "TypeError: Cannot read properties of undefined (reading includes)".

(** [flow[0].includes(a) && flow[1].includes(b)]: reading [includes] off an
    element the flow does not have throws. *)
Definition flowAccepts (flow : list string) (a b : string) : Result bool :=
  match flow !! 0%nat with
  | None => Throw undefinedIncludes
  | Some f0 =>
      if includes f0 a
      then match flow !! 1%nat with
           | None => Throw undefinedIncludes
           | Some f1 => Ok (includes f1 b)
           end
      else Ok false
  end.

(** [validFlows.some(flow => ...)] *)
Fixpoint someFlow (flows : list (list string)) (a b : string) : Result bool :=
  match flows with
  | [] => Ok false
  | flow :: rest =>
      bind (flowAccepts flow a b)
           (fun hit => if hit then Ok true else someFlow rest a b)
  end.

Fixpoint hasLogicalFlow (paths : list string) : Result bool :=
  match paths with
  | prev :: ((curr :: _) as rest) =>
      bind (someFlow validFlows prev curr)
           (fun ok => if ok then hasLogicalFlow rest else Ok false)
  | _ => Ok true
  end.

Definition analyzeNavigationPatterns (ps : list Event) : Result Q :=
  let paths := map ev_path ps in
  let score := 1%Q in
  let repetition := calculateRepetition paths in
  let score := (score * (1 - repetition))%Q in
  bind (hasLogicalFlow paths)
       (fun logical => Ok (if negb logical then (score * (7 # 10))%Q else score)).

(** The class of [antiBot.js] defines neither [analyzeHeaderConsistency] nor
    [calculateBehaviorScore] (only the class of the earlier revision does):
    [this.analyzeHeaderConsistency] and [this.calculateBehaviorScore] read as
    [undefined], and calling them throws a [TypeError]. *)
Definition notAFunction (method : string) : string :=
  "TypeError: this." ++ method ++ " is not a function".

Definition analyzeHeaderConsistency (ps : list Event) : Result Q :=
  Throw (notAFunction "analyzeHeaderConsistency").

Definition calculateBehaviorScore (analysis : Analysis) : Result Q :=
  Throw (notAFunction "calculateBehaviorScore").

Definition analyzeBehaviorPatterns (ps : list Event) : Result Analysis :=
  if Nat.ltb (length ps) 2
  then Ok {| confidence := 7 # 10; suspicious := 0;
             details := mkFactors 1 1 1 |}
  else
    let timing := analyzeTimingPatterns ps in
    bind (analyzeNavigationPatterns ps) (fun navigation =>
    bind (analyzeHeaderConsistency ps) (fun headers =>
      let confidence :=
        (timing * (3 # 10) + navigation * (4 # 10) + headers * (3 # 10))%Q in
      let suspicious := calculateSuspiciousScore timing navigation headers in
      Ok {| confidence := confidence; suspicious := suspicious;
            details := mkFactors timing navigation headers |})).

Definition newEvent (now : Z) (req : Request) : Event :=
  {| timestamp := now;
     ev_path := path req;
     ev_method := method req;
     ev_headers := getRelevantHeaders (headers req) |}.

(** [BehaviorAnalysis.analyze].  [clientData] is the object held by the
    cache when the fingerprint is known, so the pushed and pruned
    [patterns] are already visible in the cache when a later statement
    throws; a fresh object is stored only by the final [behaviorCache.set],
    which comes after the call of [calculateBehaviorScore]. *)
Definition analyze (now : Z) (req : Request) (fingerprint : string)
    (behaviorCache : gmap string ClientData)
    : gmap string ClientData * Result Behavior :=
  let clientData :=
    match behaviorCache !! fingerprint with
    | Some d => d
    | None => {| patterns := []; lastSeen := now; cd_score := 0;
                 cd_suspicious := 0 |}
    end in
  let pushed := (patterns clientData ++ [newEvent now req])%list in
  let kept := prune now pushed in
  let mutated :=
    match behaviorCache !! fingerprint with
    | Some d =>
        <[fingerprint := {| patterns := kept; lastSeen := lastSeen d;
                            cd_score := cd_score d;
                            cd_suspicious := cd_suspicious d |}]> behaviorCache
    | None => behaviorCache
    end in
  match analyzeBehaviorPatterns kept with
  | Throw msg => (mutated, Throw msg)
  | Ok analysis =>
      match calculateBehaviorScore analysis with
      | Throw msg => (mutated, Throw msg)
      | Ok score =>
          let clientData' :=
            {| patterns := kept;
               lastSeen := now;
               cd_score := score;
               cd_suspicious := suspicious analysis |} in
          (<[fingerprint := clientData']> behaviorCache,
           Ok {| humanLike := Qgeb (confidence analysis) (4 # 10);
                 b_confidence := confidence analysis;
                 b_details := details analysis;
                 b_suspicious := suspicious analysis |})
      end
  end.

(** *** detectBot *)

Inductive VerdictDetails : Type :=
| NoDetails
| OfEnvironment (d : EnvDetails)
| OfBehavior (f : Factors)
| Combined (browser : Z) (behavior : Factors).

Record Verdict : Type := mkVerdict {
  isBot : bool;
  v_confidence : Q;
  reason : option Reason;
  v_score : option Z;
  v_details : VerdictDetails;
  v_fingerprint : option string
}.

Record State : Type := mkState {
  behaviorCache : gmap string ClientData;
  legitimateClients : gset nat
}.

Section WithHash.

(** [s => crypto.createHash('sha256').update(s).digest('hex')] *)
Variable sha256_hex : string -> string.

Definition generateFingerprint (req : Request) : string :=
  sha256_hex (join ":|:" (components req)).

(** The promise returned by the [async] function: fulfilled with a
    verdict, or rejected with the exception thrown on the way. *)
Definition detectBot (now : Z) (req : Request) (st : State)
    : State * Result Verdict :=
  let fingerprint := generateFingerprint req in
  if bool_decide (oid req ∈ legitimateClients st)
  then (st, Ok (mkVerdict false 1 None None NoDetails None))
  else
    let browserCheck := validateBrowserEnvironment req in
    if score browserCheck <? 20
    then (st, Ok (mkVerdict true (95 # 100) (Some invalid_browser_environment)
                    (Some (score browserCheck))
                    (OfEnvironment (env_details browserCheck)) None))
    else
      match analyze now req fingerprint (behaviorCache st) with
      | (cache', Throw msg) => (mkState cache' (legitimateClients st), Throw msg)
      | (cache', Ok behavior) =>
          if (negb (humanLike behavior) && (1 <? b_suspicious behavior))%bool
          then (mkState cache' (legitimateClients st),
                Ok (mkVerdict true (85 # 100) (Some suspicious_behavior) None
                      (OfBehavior (b_details behavior)) None))
          else if ((40 <=? score browserCheck)
                   && Qgeb (b_confidence behavior) (4 # 10))%bool
          then (mkState cache' ({[ oid req ]} ∪ legitimateClients st),
                Ok (mkVerdict false (b_confidence behavior) None None NoDetails
                      (Some fingerprint)))
          else (mkState cache' (legitimateClients st),
                Ok (mkVerdict true (6 # 10) (Some combined_factors) None
                      (Combined (score browserCheck) (b_details behavior))
                      None))
      end.

End WithHash.

(** *** The store over time

    [reachable clock cache]: [cache] is the store after some sequence of
    [analyze] calls, started from the empty map, whose clock readings never
    decrease; [clock] is the latest reading.  Every call throws; the store
    it leaves is the next store.  This revision has no sweeper. *)
Inductive reachable : Z -> gmap string ClientData -> Prop :=
| reach_start clock :
    reachable clock ∅
| reach_analyze clock cache now req fingerprint :
    reachable clock cache -> clock <= now ->
    reachable now (fst (analyze now req fingerprint cache)).

End AntiBot.

(** ** Concrete requests used by the examples *)

Module Samples.

(** A stand-in for the digest where a concrete run needs one. *)
Definition digest (s : string) : string := s.

Definition chromeUA : string :=
  "Mozilla/5.0 (Windows NT 10.0; Win64; x64) AppleWebKit/537.36 (KHTML, like Gecko) Chrome/120.0.0.0 Safari/537.36".

Definition chromeHeaders : gmap string string :=
  <["user-agent" := chromeUA]>
  (<["accept" := "text/html"]>
  (<["accept-language" := "en-US"]>
  (<["accept-encoding" := "gzip"]> ∅))).

(** A browser request for [path]; [n] is the identity of the request object. *)
Definition visit (n : nat) (path : string) : Request :=
  mkRequest n chromeHeaders path "GET" (Some "203.0.113.7").

(** The same browser sending its fetch metadata and client hints. *)
Definition modernRequest : Request :=
  mkRequest 0
    (<["sec-fetch-site" := "none"]>
    (<["sec-fetch-mode" := "navigate"]>
    (<["sec-fetch-dest" := "document"]>
    (<["sec-ch-ua-platform" := quoted "Windows"]>
    (<["sec-ch-ua-mobile" := "?0"]> chromeHeaders)))))
    "/" "GET" (Some "203.0.113.7").

(** A request without any header. *)
Definition bareRequest : Request := mkRequest 0 ∅ "/" "GET" None.

Definition automationUA : string :=
  "selenium webdriver headless phantom puppeteer playwright cypress automation metamask bot crawler spider".

Definition automationRequest : Request :=
  mkRequest 0
    (<["user-agent" := automationUA]> (<["sec-ch-ua" := quoted "chromium"]> ∅))
    "/" "GET" None.

Definition everythingUA : string :=
  "chrome/1.0 windows nt 10.0 macintosh android iphone mobile".

Definition everythingRequest : Request :=
  mkRequest 0
    (<["user-agent" := everythingUA]>
    (<["accept" := "text/html"]>
    (<["accept-language" := "en-US"]>
    (<["accept-encoding" := "gzip"]>
    (<["sec-fetch-site" := "none"]>
    (<["sec-fetch-mode" := "navigate"]>
    (<["sec-fetch-dest" := "document"]>
    (<["sec-ch-ua-platform" := "windows mac android ios"]>
    (<["sec-ch-ua-mobile" := "?1"]> ∅)))))))))
    "/" "GET" None.

Definition legacyUA : string :=
  "Chrome/1 Firefox/1 Safari/1 Edge/1 Mobile Windows NT 1 Macintosh Mac OS X 1 Linux Android 1 iPhone OS 1".

Definition legacyRequest : Request :=
  mkRequest 0
    (<["user-agent" := legacyUA]>
    (<["accept" := "text/html"]>
    (<["accept-language" := "en-US"]>
    (<["accept-encoding" := "gzip"]>
    (<["sec-fetch-site" := "none"]>
    (<["sec-fetch-mode" := "navigate"]>
    (<["sec-fetch-dest" := "document"]>
    (<["sec-ch-ua" := "v=" ++ quoted "1"]>
    (<["sec-ch-ua-platform" := quoted "Windows"]>
    (<["sec-ch-ua-mobile" := "?0"]> ∅))))))))))
    "/" "GET" None.

Definition emptyState : AntiBot.State := AntiBot.mkState ∅ ∅.
Definition emptyLegacyState : Part001.State := Part001.mkState ∅ ∅.

(** The verdict of an outcome (a neutral one stands in for an exception). *)
Definition verdictOf (r : AntiBot.State * Result AntiBot.Verdict) : AntiBot.Verdict :=
  match snd r with
  | Ok v => v
  | Throw _ => AntiBot.mkVerdict false 0 None None AntiBot.NoDetails None
  end.

(** A profile seen at 0 and again four minutes later. *)
Definition agedCache : gmap string Part001.ClientData :=
  fst (Part001.analyze 240000 (visit 2 "/check-ip") "client"
         (fst (Part001.analyze 0 (visit 1 "/") "client" ∅))).

(** The store of the current revision after two calls for one client. *)
Definition cacheAfterTwo : gmap string AntiBot.ClientData :=
  fst (AntiBot.analyze 1010 (visit 2 "/check-ip") "client"
         (fst (AntiBot.analyze 1000 (visit 1 "/check-ip") "client" ∅))).

Definition agedProfile : Part001.ClientData :=
  default (Part001.mkClientData [] 0 0) (agedCache !! "client").

End Samples.

(** ** Measures used to state further properties *)

Module Measures.

(** The number of language and encoding changes between consecutive
    requests. *)
Fixpoint changes (hs : list RelevantHeaders) : nat :=
  match hs with
  | prev :: ((curr :: _) as rest) =>
      ((if strictNe (language prev) (language curr) then 1 else 0)
       + (if strictNe (encoding prev) (encoding curr) then 1 else 0)
       + changes rest)%nat
  | _ => 0%nat
  end.

(** [c * 0.8 * ... * 0.8], with [k] factors 0.8. *)
Fixpoint decayed (c : Q) (k : nat) : Q :=
  match k with
  | O => c
  | S k' => (decayed c k' * (8 # 10))%Q
  end.

(** A path that one of the [validSequences] of the earlier revision
    recognises. *)
Definition recognised (p : string) : bool :=
  existsb (fun pat => Regex.test pat p) Part001.validSequences.

(** The number of truthy entries among the named headers. *)
Definition presentAmong (h : gmap string string) (names : list string) : Z :=
  Z.of_nat (length (List.filter (fun name => truthy (h !! name)) names)).

(** An event has left the retention window at [now]. *)
Definition expired (now : Z) (e : Event) : Prop :=
  PATTERN_MEMORY <= now - timestamp e.

End Measures.

(** ** Further concrete runs *)

Module Cases.

Import Samples.

(** The first request of a browser, served from the empty state. *)
Definition firstVisit : AntiBot.State * Result AntiBot.Verdict :=
  AntiBot.detectBot digest 1000 (visit 1 "/check-ip") emptyState.


(** Three requests for one page, 10 ms apart. *)
Definition burst : list Event :=
  [AntiBot.newEvent 1000 (visit 1 "/check-ip");
   AntiBot.newEvent 1010 (visit 2 "/check-ip");
   AntiBot.newEvent 1020 (visit 3 "/check-ip")].

(** A browser with every header the earlier revision asks for. *)
Definition legacyVisit (n : nat) : Request :=
  mkRequest n (headers legacyRequest) "/" "GET" None.

Definition legacyFirst : Part001.State * Part001.Verdict :=
  Part001.detectBot digest 1000 (legacyVisit 0) emptyLegacyState.


Definition legacyProfile : Part001.ClientData :=
  default (Part001.mkClientData [] 0 0)
    (Part001.behaviorCache (fst legacyFirst)
       !! Part001.generateFingerprint digest (legacyVisit 1)).

Definition pagePaths : list string := ["/"; "/check-ip"; "/loading"; "/other"].

End Cases.

(** * Properties *)

(** ** The matcher decides the language of a pattern *)

Section RegexSound.

Import Regex.

Lemma append_cons (c : ascii) (s t : string) :
  (String c s ++ t)%string = String c (s ++ t)%string.
Proof. reflexivity. Qed.

Lemma append_empty_l (t : string) : (EmptyString ++ t)%string = t.
Proof. reflexivity. Qed.

Lemma append_empty_r (s : string) : (s ++ EmptyString)%string = s.
Proof.
  induction s as [|c s IH]; [reflexivity|].
  rewrite append_cons. f_equal. exact IH.
Qed.

Lemma append_empty (s t : string) :
  (s ++ t)%string = EmptyString -> s = EmptyString /\ t = EmptyString.
Proof.
  destruct s; [rewrite append_empty_l; auto|rewrite append_cons; discriminate].
Qed.

Lemma nullable_lang (r : re) : nullable r = true <-> lang r EmptyString.
Proof.
  induction r as [| |p|a IHa b IHb|a IHa b IHb|a IHa]; simpl.
  - split; [discriminate|inversion 1].
  - split; [constructor|reflexivity].
  - split; [discriminate|inversion 1].
  - rewrite andb_true_iff, IHa, IHb. split.
    + intros [Ha Hb]. exact (lang_seq a b _ _ Ha Hb).
    + inversion 1 as [| |a' b' s t Ha Hb [Ea Eb] Est| | | |]; subst.
      apply append_empty in Est as [-> ->]. auto.
  - rewrite orb_true_iff, IHa, IHb. split.
    + intros [H|H]; [now apply lang_alt_l|now apply lang_alt_r].
    + inversion 1; subst; auto.
  - split; [constructor|reflexivity].
Qed.

Lemma lang_smart_seq (a b : re) (s : string) :
  lang (seq a b) s <-> lang (Seq a b) s.
Proof.
  assert (Hvl : forall b s, ~ lang (Seq Void b) s)
    by (intros ? ? H; inversion H as [| |? ? ? ? Ha| | | |]; inversion Ha).
  assert (Hvr : forall a s, ~ lang (Seq a Void) s)
    by (intros ? ? H; inversion H as [| |? ? ? ? ? Hb| | | |]; inversion Hb).
  assert (Hel : forall b s, lang (Seq Eps b) s <-> lang b s).
  { intros b0 s0. split.
    - inversion 1 as [| |? ? ? ? Ha Hb| | | |]; subst. inversion Ha; subst.
      exact Hb.
    - intros H. exact (lang_seq Eps b0 _ _ lang_eps H). }
  assert (Her : forall a s, lang (Seq a Eps) s <-> lang a s).
  { intros a0 s0. split.
    - inversion 1 as [| |? ? ? ? Ha Hb| | | |]; subst. inversion Hb; subst.
      now rewrite append_empty_r.
    - intros H. rewrite <- (append_empty_r s0).
      exact (lang_seq a0 Eps _ _ H lang_eps). }
  destruct a, b; simpl; try reflexivity;
    rewrite ?Hel, ?Her; try reflexivity;
    split; intros H; try (now inversion H);
    try (exfalso; eapply Hvl; eassumption);
    try (exfalso; eapply Hvr; eassumption).
Qed.

Lemma lang_smart_alt (a b : re) (s : string) :
  lang (alt a b) s <-> lang (Alt a b) s.
Proof.
  assert (Hl : forall b s, lang (Alt Void b) s <-> lang b s).
  { intros b0 s0. split.
    - inversion 1 as [| | |? ? ? Ha|? ? ? Hb| |]; subst;
        [inversion Ha|exact Hb].
    - apply lang_alt_r. }
  assert (Hr : forall a s, lang (Alt a Void) s <-> lang a s).
  { intros a0 s0. split.
    - inversion 1 as [| | |? ? ? Ha|? ? ? Hb| |]; subst;
        [exact Ha|inversion Hb].
    - apply lang_alt_l. }
  destruct a, b; simpl; rewrite ?Hl, ?Hr; reflexivity.
Qed.

(** A non-empty word of a star starts with a non-empty word of its body. *)
Lemma lang_star_uncons (a : re) (w : string) :
  lang (Star a) w -> forall c s, w = String c s ->
  exists s1 s2, s = (s1 ++ s2)%string /\ lang a (String c s1) /\ lang (Star a) s2.
Proof.
  intros H. remember (Star a) as r eqn:Er.
  induction H as [| | | | | |a' u t Hu _ Ht IHt]; try discriminate.
  inversion Er; subst a'. intros c s E.
  destruct u as [|c' u];
    [rewrite append_empty_l in E|rewrite append_cons in E].
  - apply IHt; auto.
  - inversion E; subst. exists u, t. auto.
Qed.

Lemma deriv_lang (c : ascii) (r : re) (s : string) :
  lang (deriv c r) s <-> lang r (String c s).
Proof.
  revert s. induction r as [| |p|a IHa b IHb|a IHa b IHb|a IHa]; intros s; simpl.
  - split; inversion 1.
  - split; inversion 1.
  - destruct (p c) eqn:E; split; intros H.
    + inversion H; subst. now constructor.
    + inversion H; subst. constructor.
    + inversion H.
    + inversion H; subst. congruence.
  - assert (Hcons : lang (Seq (deriv c a) b) s <->
                    exists s1 s2, s = (s1 ++ s2)%string /\
                                  lang a (String c s1) /\ lang b s2).
    { split.
      - inversion 1 as [| |? ? s1 s2 Ha Hb| | | |]; subst.
        exists s1, s2. rewrite <- IHa. auto.
      - intros [s1 [s2 [-> [Ha Hb]]]]. apply lang_seq; [now apply IHa|assumption]. }
    assert (Hsplit : lang (Seq a b) (String c s) <->
                     (exists s1 s2, s = (s1 ++ s2)%string /\
                                    lang a (String c s1) /\ lang b s2) \/
                     (lang a EmptyString /\ lang b (String c s))).
    { split.
      - inversion 1 as [| |? ? u t Ha Hb [Ea Eb] Eut| | | |]; subst.
        destruct u as [|c' u];
          [rewrite append_empty_l in Eut|rewrite append_cons in Eut].
        + right. subst. auto.
        + inversion Eut; subst. left. eauto.
      - intros [[s1 [s2 [-> [Ha Hb]]]]|[Ha Hb]].
        + exact (lang_seq a b _ _ Ha Hb).
        + exact (lang_seq a b _ _ Ha Hb). }
    rewrite Hsplit.
    destruct (nullable a) eqn:En.
    + rewrite lang_smart_alt. split.
      * inversion 1 as [| | |? ? ? H1|? ? ? H1| |]; subst.
        -- left. apply Hcons. now apply lang_smart_seq.
        -- right. split; [now apply nullable_lang|now apply IHb].
      * intros [H1|[_ H1]].
        -- apply lang_alt_l. apply lang_smart_seq. now apply Hcons.
        -- apply lang_alt_r. now apply IHb.
    + rewrite lang_smart_seq, Hcons. split; [auto|].
      intros [H1|[H1 _]]; [assumption|].
      apply nullable_lang in H1. congruence.
  - rewrite lang_smart_alt. split.
    + inversion 1; subst; [apply lang_alt_l; now apply IHa
                          |apply lang_alt_r; now apply IHb].
    + inversion 1; subst; [apply lang_alt_l; now apply IHa
                          |apply lang_alt_r; now apply IHb].
  - rewrite lang_smart_seq. split.
    + inversion 1 as [| |? ? s1 s2 Ha Hb| | | |]; subst.
      apply IHa in Ha. exact (lang_star_more a _ _ Ha Hb).
    + intros H.
      destruct (lang_star_uncons a _ H c s eq_refl) as [s1 [s2 [-> [Ha Hs]]]].
      apply lang_seq; [now apply IHa|assumption].
Qed.

Theorem matches_lang (r : re) (s : string) : matches r s = true <-> lang r s.
Proof.
  revert r. induction s as [|c s IH]; intros r; simpl.
  - apply nullable_lang.
  - rewrite IH. apply deriv_lang.
Qed.

Lemma lang_any (s : string) : lang (Star anyChar) s.
Proof.
  induction s as [|c s IH]; [constructor|].
  change (String c s) with (String c EmptyString ++ s)%string.
  apply lang_star_more; [now constructor|assumption].
Qed.

(** [test] holds exactly when the subject splits into a part before the
    match, a word of the body, and a part after it; an anchor makes the
    part on its side empty. *)
Theorem test_spec (p : pattern) (s : string) :
  test p s = true <->
  exists before mid after,
    (if ignoreCase p then toLowerCase s else s)
    = (before ++ mid ++ after)%string /\
    lang (body p) mid /\
    (anchorStart p = true -> before = EmptyString) /\
    (anchorEnd p = true -> after = EmptyString).
Proof.
  unfold test. rewrite matches_lang.
  set (subject := if ignoreCase p then toLowerCase s else s). split.
  - inversion 1 as [| |? ? u vw Hu Hvw| | | |]; subst.
    inversion Hvw as [| |? ? v w Hv Hw| | | |]; subst.
    exists u, v, w. split; [reflexivity|]. split; [assumption|]. split.
    + intros E. rewrite E in Hu. now inversion Hu.
    + intros E. rewrite E in Hw. now inversion Hw.
  - intros [u [v [w [-> [Hv [Hu Hw]]]]]].
    apply lang_seq; [|apply lang_seq; [assumption|]].
    + destruct (anchorStart p); [rewrite Hu by reflexivity; constructor
                                |apply lang_any].
    + destruct (anchorEnd p); [rewrite Hw by reflexivity; constructor
                              |apply lang_any].
Qed.

End RegexSound.


(** ** Rational comparisons *)

Lemma Qltb_lt (x y : Q) : Qltb x y = true <-> (x < y)%Q.
Proof.
  unfold Qltb. rewrite negb_true_iff. split.
  - intros H. apply Qnot_le_lt. intros Hle.
    apply Qle_bool_iff in Hle. congruence.
  - intros H. destruct (Qle_bool y x) eqn:E; [|reflexivity].
    apply Qle_bool_iff in E. exfalso. apply (Qlt_not_le _ _ H E).
Qed.

Lemma Qltb_ge (x y : Q) : Qltb x y = false <-> (y <= x)%Q.
Proof.
  unfold Qltb. rewrite negb_false_iff. apply Qle_bool_iff.
Qed.

Lemma Qgeb_ge (x y : Q) : Qgeb x y = true <-> (y <= x)%Q.
Proof. unfold Qgeb. apply Qle_bool_iff. Qed.

Lemma Qgeb_lt (x y : Q) : Qgeb x y = false <-> (x < y)%Q.
Proof.
  unfold Qgeb. split.
  - intros H. apply Qnot_le_lt. intros Hle.
    apply Qle_bool_iff in Hle. congruence.
  - intros H. destruct (Qle_bool y x) eqn:E; [|reflexivity].
    apply Qle_bool_iff in E. exfalso. apply (Qlt_not_le _ _ H E).
Qed.

(** ** Suspicion count *)

Section Suspicion.

Import AntiBot.

Lemma suspicious_score_range (t n h : Q) :
  0 <= calculateSuspiciousScore t n h <= 3.
Proof.
  unfold calculateSuspiciousScore.
  destruct (Qltb t _), (Qltb n _), (Qltb h _); lia.
Qed.

(** Two or more points: at least two factors are low. *)
Lemma suspicious_score_two (t n h : Q) :
  1 < calculateSuspiciousScore t n h ->
  ((t < 3 # 10) /\ (n < 3 # 10))%Q \/
  ((t < 3 # 10) /\ (h < 3 # 10))%Q \/
  ((n < 3 # 10) /\ (h < 3 # 10))%Q.
Proof.
  unfold calculateSuspiciousScore.
  destruct (Qltb t _) eqn:Et, (Qltb n _) eqn:En, (Qltb h _) eqn:Eh;
    try lia; rewrite ?Qltb_lt in *; intros _; tauto.
Qed.

(** C9: the suspicion count is monotone in the set of low factors: when
    every factor that is below 0.3 in the first triple is below 0.3 in the
    second, the count of the first is at most the count of the second. *)
Theorem suspicion_monotone (t1 n1 h1 t2 n2 h2 : Q) :
  ((t1 < 3 # 10)%Q -> (t2 < 3 # 10)%Q) ->
  ((n1 < 3 # 10)%Q -> (n2 < 3 # 10)%Q) ->
  ((h1 < 3 # 10)%Q -> (h2 < 3 # 10)%Q) ->
  calculateSuspiciousScore t1 n1 h1 <= calculateSuspiciousScore t2 n2 h2.
Proof.
  intros Ht Hn Hh. unfold calculateSuspiciousScore.
  destruct (Qltb t1 _) eqn:Et1, (Qltb t2 _) eqn:Et2;
  destruct (Qltb n1 _) eqn:En1, (Qltb n2 _) eqn:En2;
  destruct (Qltb h1 _) eqn:Eh1, (Qltb h2 _) eqn:Eh2;
    try lia; exfalso;
    repeat match goal with
      | H : Qltb _ _ = true |- _ => apply Qltb_lt in H
      | H : Qltb _ _ = false |- _ => apply Qltb_ge in H
      end;
    repeat match goal with
      | H : (?a < 3 # 10)%Q -> _, H' : (?a < 3 # 10)%Q |- _ => specialize (H H')
      end;
    lra.
Qed.

Lemma suspicion_monotone_witness :
  ((0 < 3 # 10)%Q -> (0 < 3 # 10)%Q) /\
  ((1 < 3 # 10)%Q -> (0 < 3 # 10)%Q) /\
  ((1 < 3 # 10)%Q -> (1 < 3 # 10)%Q) /\
  calculateSuspiciousScore 0 1 1 <= calculateSuspiciousScore 0 0 1.
Proof.
  repeat split; try (intros; lra).
  apply (suspicion_monotone 0 1 1 0 0 1); intros; lra.
Defined.

End Suspicion.

(** ** Fingerprints *)

Section Fingerprint.

Variable sha256_hex : string -> string.

Lemma filterBoolean_app (l1 l2 : list (option string)) :
  filterBoolean (l1 ++ l2)%list = (filterBoolean l1 ++ filterBoolean l2)%list.
Proof.
  induction l1 as [|[[|c s]|] l1 IH]; simpl; rewrite ?IH; reflexivity.
Qed.

(** Every component that reaches the digest is a non-empty string. *)
Lemma filterBoolean_truthy (l : list (option string)) (s : string) :
  s ∈ filterBoolean l -> truthy (Some s) = true /\ Some s ∈ l.
Proof.
  induction l as [|[[|c t]|] l IH]; simpl; intros H.
  - inversion H.
  - destruct (IH H) as [? ?]. split; [assumption|]. now constructor.
  - apply elem_of_cons in H as [->|H].
    + split; [reflexivity|]. constructor.
    + destruct (IH H) as [? ?]. split; [assumption|]. now constructor.
  - destruct (IH H) as [? ?]. split; [assumption|]. now constructor.
Qed.

Lemma lookups_agree (names : list string) (h1 h2 : gmap string string) :
  (forall name, name ∈ names -> h1 !! name = h2 !! name) ->
  map (fun name => h1 !! name) names = map (fun name => h2 !! name) names.
Proof.
  intros H. apply map_ext_in. intros name Hin. apply H.
  now apply list_elem_of_In.
Qed.

Lemma components_agree (r1 r2 : Request) :
  (forall name, name ∈ AntiBot.fingerprintHeaders ->
                headers r1 !! name = headers r2 !! name) ->
  ip r1 = ip r2 ->
  AntiBot.components r1 = AntiBot.components r2.
Proof.
  intros Hh Hip. unfold AntiBot.components.
  rewrite (lookups_agree _ _ _ Hh), Hip. reflexivity.
Qed.

Lemma browserComponents_agree (r1 r2 : Request) :
  (forall name, name ∈ Part001.fingerprintHeaders ->
                headers r1 !! name = headers r2 !! name) ->
  Part001.browserComponents r1 = Part001.browserComponents r2.
Proof.
  intros Hh. unfold Part001.browserComponents.
  rewrite (lookups_agree _ _ _ Hh). reflexivity.
Qed.

(** A request none of whose selected components is present is digested as
    the empty string. *)
Lemma fingerprint_of_nothing (req : Request) :
  (forall name, name ∈ AntiBot.fingerprintHeaders -> headers req !! name = None) ->
  ip req = None ->
  AntiBot.generateFingerprint sha256_hex req = sha256_hex EmptyString.
Proof.
  intros Hh Hip. unfold AntiBot.generateFingerprint, AntiBot.components.
  rewrite Hip. unfold AntiBot.fingerprintHeaders in *. simpl.
  rewrite !Hh by (repeat constructor). reflexivity.
Qed.

Lemma legacy_fingerprint_of_nothing (req : Request) :
  (forall name, name ∈ Part001.fingerprintHeaders -> headers req !! name = None) ->
  Part001.generateFingerprint sha256_hex req = sha256_hex EmptyString.
Proof.
  intros Hh. unfold Part001.generateFingerprint, Part001.browserComponents.
  unfold Part001.fingerprintHeaders in *. simpl.
  rewrite !Hh by (repeat constructor). reflexivity.
Qed.

(** C2: the fingerprint is a function of the selected header values (and,
    in [antiBot.js], of the remote address) alone.  Two requests that agree
    on the components a revision selects get the same token from it; the
    function takes no state, so neither call order nor the cache can change
    the token; absent and empty components are dropped from the digested
    list, and a request with no component at all is digested as the empty
    string. *)
Theorem fingerprint_deterministic (r1 r2 : Request) :
  ((forall name, name ∈ AntiBot.fingerprintHeaders ->
                 headers r1 !! name = headers r2 !! name) ->
   ip r1 = ip r2 ->
   AntiBot.generateFingerprint sha256_hex r1
   = AntiBot.generateFingerprint sha256_hex r2) /\
  ((forall name, name ∈ Part001.fingerprintHeaders ->
                 headers r1 !! name = headers r2 !! name) ->
   Part001.generateFingerprint sha256_hex r1
   = Part001.generateFingerprint sha256_hex r2) /\
  (forall s, s ∈ AntiBot.components r1 -> s <> EmptyString) /\
  (forall s, s ∈ Part001.browserComponents r1 -> s <> EmptyString) /\
  ((forall name, name ∈ AntiBot.fingerprintHeaders -> headers r1 !! name = None) ->
   ip r1 = None ->
   AntiBot.generateFingerprint sha256_hex r1 = sha256_hex EmptyString) /\
  ((forall name, name ∈ Part001.fingerprintHeaders -> headers r1 !! name = None) ->
   Part001.generateFingerprint sha256_hex r1 = sha256_hex EmptyString).
Proof.
  split; [|split; [|split; [|split; [|split]]]].
  - intros Hh Hip. unfold AntiBot.generateFingerprint.
    rewrite (components_agree r1 r2); auto.
  - intros Hh. unfold Part001.generateFingerprint.
    rewrite (browserComponents_agree r1 r2); auto.
  - intros s Hs ->. apply filterBoolean_truthy in Hs as [Ht _]. discriminate.
  - intros s Hs ->. apply filterBoolean_truthy in Hs as [Ht _]. discriminate.
  - intros Hh Hip. apply fingerprint_of_nothing; auto.
  - intros Hh. apply legacy_fingerprint_of_nothing; auto.
Qed.

End Fingerprint.

Lemma fingerprint_deterministic_witness :
  (forall name, name ∈ AntiBot.fingerprintHeaders ->
                headers (Samples.visit 1 "/") !! name
                = headers (Samples.visit 2 "/review") !! name) /\
  ip (Samples.visit 1 "/") = ip (Samples.visit 2 "/review") /\
  AntiBot.generateFingerprint Samples.digest (Samples.visit 1 "/")
  = AntiBot.generateFingerprint Samples.digest (Samples.visit 2 "/review") /\
  Part001.generateFingerprint Samples.digest (Samples.visit 1 "/")
  = Part001.generateFingerprint Samples.digest (Samples.visit 2 "/review").
Proof.
  assert (Hh : forall name, name ∈ AntiBot.fingerprintHeaders ->
                 headers (Samples.visit 1 "/") !! name
                 = headers (Samples.visit 2 "/review") !! name)
    by reflexivity.
  assert (Hl : forall name, name ∈ Part001.fingerprintHeaders ->
                 headers (Samples.visit 1 "/") !! name
                 = headers (Samples.visit 2 "/review") !! name)
    by reflexivity.
  split; [exact Hh|]. split; [reflexivity|]. split.
  - exact (proj1 (fingerprint_deterministic Samples.digest
                    (Samples.visit 1 "/") (Samples.visit 2 "/review"))
             Hh eq_refl).
  - exact (proj1 (proj2 (fingerprint_deterministic Samples.digest
                           (Samples.visit 1 "/") (Samples.visit 2 "/review")))
             Hl).
Defined.

(** ** The ordered exits of [detectBot] *)

Section Exits.

Variable sha256_hex : string -> string.

(** C6: a request that is not on the legitimacy fast path and whose
    environment score is below the hard-fail threshold (20 in [antiBot.js];
    the validity bar 70 in the earlier revision) gets the verdict
    [isBot = true], reason [invalid_browser_environment], confidence 0.95
    (0.9 in the earlier revision), and the state is returned untouched: the
    behaviour analysis is not run. *)
Theorem hard_fail_verdict (now : Z) (req : Request) :
  (forall st : AntiBot.State,
      oid req ∉ AntiBot.legitimateClients st ->
      AntiBot.score (AntiBot.validateBrowserEnvironment req) < 20 ->
      exists v,
        AntiBot.detectBot sha256_hex now req st = (st, Ok v) /\
        AntiBot.isBot v = true /\
        AntiBot.v_confidence v = (95 # 100)%Q /\
        (9 # 10 <= AntiBot.v_confidence v <= 95 # 100)%Q /\
        AntiBot.reason v = Some invalid_browser_environment) /\
  (forall st : Part001.State,
      oid req ∉ Part001.legitimateClients st ->
      Part001.score (Part001.validateBrowserEnvironment req) < 70 ->
      exists v,
        Part001.detectBot sha256_hex now req st = (st, v) /\
        Part001.isBot v = true /\
        Part001.v_confidence v = (9 # 10)%Q /\
        (9 # 10 <= Part001.v_confidence v <= 95 # 100)%Q /\
        Part001.reason v = Some invalid_browser_environment).
Proof.
  split; intros st Hlegit Hscore.
  - unfold AntiBot.detectBot.
    rewrite bool_decide_eq_false_2 by assumption.
    apply Z.ltb_lt in Hscore. rewrite Hscore.
    eexists. split; [reflexivity|]. simpl. repeat split; try reflexivity; lra.
  - unfold Part001.detectBot.
    rewrite bool_decide_eq_false_2 by assumption.
    assert (Hv : Part001.valid (Part001.validateBrowserEnvironment req) = false).
    { unfold Part001.validateBrowserEnvironment in *. simpl in *.
      apply Z.leb_gt. exact Hscore. }
    rewrite Hv. simpl.
    eexists. split; [reflexivity|]. simpl. repeat split; try reflexivity; lra.
Qed.


End Exits.

Lemma hard_fail_verdict_witness :
  (oid Samples.bareRequest ∉ AntiBot.legitimateClients Samples.emptyState) /\
  AntiBot.score (AntiBot.validateBrowserEnvironment Samples.bareRequest) < 20 /\
  exists v,
    AntiBot.detectBot Samples.digest 0 Samples.bareRequest Samples.emptyState
    = (Samples.emptyState, Ok v) /\
    AntiBot.isBot v = true /\
    AntiBot.v_confidence v = (95 # 100)%Q /\
    (9 # 10 <= AntiBot.v_confidence v <= 95 # 100)%Q /\
    AntiBot.reason v = Some invalid_browser_environment.
Proof.
  assert (H1 : oid Samples.bareRequest ∉ AntiBot.legitimateClients Samples.emptyState)
    by (simpl; apply not_elem_of_empty).
  assert (H2 : AntiBot.score (AntiBot.validateBrowserEnvironment Samples.bareRequest) < 20)
    by (vm_compute; reflexivity).
  split; [exact H1|]. split; [exact H2|].
  exact (proj1 (hard_fail_verdict Samples.digest 0 Samples.bareRequest)
           Samples.emptyState H1 H2).
Defined.



(** ** The sweeper *)

Section Sweeper.

Import Part001.

Lemma sweep_fold_absent (now : Z) (l : list (string * ClientData))
    (m : gmap string ClientData) (k : string) :
  m !! k = None -> fold_left (sweepEntry now) l m !! k = None.
Proof.
  revert m. induction l as [|[k' d'] l IH]; intros m Hm; simpl; [assumption|].
  apply IH. unfold sweepEntry. simpl.
  destruct (PATTERN_MEMORY <? now - lastSeen d'); [|assumption].
  destruct (decide (k' = k)) as [->|Hne].
  - apply lookup_delete_eq.
  - rewrite lookup_delete_ne by assumption. assumption.
Qed.

Lemma sweep_fold_kept (now : Z) (l : list (string * ClientData))
    (m : gmap string ClientData) (k : string) :
  (forall d, (k, d) ∈ l -> now - lastSeen d <= PATTERN_MEMORY) ->
  fold_left (sweepEntry now) l m !! k = m !! k.
Proof.
  revert m. induction l as [|[k' d'] l IH]; intros m Hl; simpl; [reflexivity|].
  rewrite IH by (intros d Hd; apply Hl; now constructor).
  unfold sweepEntry. simpl.
  destruct (PATTERN_MEMORY <? now - lastSeen d') eqn:E; [|reflexivity].
  apply Z.ltb_lt in E.
  destruct (decide (k' = k)) as [->|Hne].
  - specialize (Hl d' ltac:(constructor)). lia.
  - now rewrite lookup_delete_ne.
Qed.

Lemma sweep_fold_dropped (now : Z) (l : list (string * ClientData))
    (m : gmap string ClientData) (k : string) (d : ClientData) :
  (k, d) ∈ l -> PATTERN_MEMORY < now - lastSeen d ->
  fold_left (sweepEntry now) l m !! k = None.
Proof.
  revert m. induction l as [|[k' d'] l IH]; intros m Hin Hstale; simpl.
  - inversion Hin.
  - apply elem_of_cons in Hin as [[= <- <-]|Hin].
    + apply sweep_fold_absent. unfold sweepEntry. simpl.
      apply Z.ltb_lt in Hstale. rewrite Hstale. apply lookup_delete_eq.
    + now apply IH.
Qed.

(** The loop is a filter on [lastSeen]. *)
Lemma sweep_lookup (now : Z) (m : gmap string ClientData) (k : string) :
  sweep now m !! k =
  match m !! k with
  | Some d => if PATTERN_MEMORY <? now - lastSeen d then None else Some d
  | None => None
  end.
Proof.
  unfold sweep. destruct (m !! k) as [d|] eqn:Hk.
  - destruct (PATTERN_MEMORY <? now - lastSeen d) eqn:E.
    + apply Z.ltb_lt in E.
      apply (sweep_fold_dropped now _ m k d); [|assumption].
      now apply elem_of_map_to_list.
    + apply Z.ltb_ge in E. rewrite sweep_fold_kept; [assumption|].
      intros d' Hd'. apply elem_of_map_to_list in Hd'.
      rewrite Hk in Hd'. now inversion Hd'; subst.
  - now apply sweep_fold_absent.
Qed.

(** C5: a profile last seen more than the retention window before [now] is
    gone from the store after one run of the sweeper at [now], whatever else
    the store holds. *)
Theorem sweep_evicts_idle (now : Z) (cache : gmap string ClientData)
    (fingerprint : string) (data : ClientData) :
  cache !! fingerprint = Some data ->
  PATTERN_MEMORY < now - lastSeen data ->
  sweep now cache !! fingerprint = None.
Proof.
  intros Hk Hstale. rewrite sweep_lookup, Hk.
  apply Z.ltb_lt in Hstale. now rewrite Hstale.
Qed.

(** The sweeper touches nothing else: a profile seen within the window
    stays as it is. *)
Lemma sweep_keeps_active (now : Z) (cache : gmap string ClientData)
    (fingerprint : string) (data : ClientData) :
  cache !! fingerprint = Some data ->
  now - lastSeen data <= PATTERN_MEMORY ->
  sweep now cache !! fingerprint = Some data.
Proof.
  intros Hk Hactive. rewrite sweep_lookup, Hk.
  apply Z.ltb_ge in Hactive. now rewrite Hactive.
Qed.

Lemma sweep_survivor (now : Z) (cache : gmap string ClientData)
    (fingerprint : string) (data : ClientData) :
  sweep now cache !! fingerprint = Some data ->
  cache !! fingerprint = Some data /\ now - lastSeen data <= PATTERN_MEMORY.
Proof.
  rewrite sweep_lookup. destruct (cache !! fingerprint) as [d|]; [|discriminate].
  destruct (PATTERN_MEMORY <? now - lastSeen d) eqn:E; [discriminate|].
  intros [= ->]. apply Z.ltb_ge in E. auto.
Qed.

End Sweeper.

Lemma sweep_evicts_idle_witness :
  Samples.agedCache !! "client" = Some Samples.agedProfile /\
  PATTERN_MEMORY < 600000 - Part001.lastSeen Samples.agedProfile /\
  Part001.sweep 600000 Samples.agedCache !! "client" = None.
Proof.
  assert (H1 : Samples.agedCache !! "client" = Some Samples.agedProfile)
    by (vm_compute; reflexivity).
  assert (H2 : PATTERN_MEMORY < 600000 - Part001.lastSeen Samples.agedProfile)
    by (vm_compute; reflexivity).
  split; [exact H1|]. split; [exact H2|].
  exact (sweep_evicts_idle 600000 Samples.agedCache "client" _ H1 H2).
Defined.

(** ** Pruning and ordering of the event sequence *)

Section Window.

Lemma elem_of_prune (now : Z) (ps : list Event) (e : Event) :
  e ∈ prune now ps <-> e ∈ ps /\ now - timestamp e < PATTERN_MEMORY.
Proof.
  unfold prune, inWindow. rewrite !list_elem_of_In, filter_In, Z.ltb_lt.
  reflexivity.
Qed.

Lemma prune_fresh (now : Z) (ps : list Event) : fresh now (prune now ps).
Proof.
  unfold fresh. apply Forall_forall. intros e He.
  now apply elem_of_prune in He as [_ He].
Qed.


(** The event stamped [now] survives the pruning at [now]. *)
Lemma prune_snoc (now : Z) (ps : list Event) (e : Event) :
  timestamp e = now ->
  prune now (ps ++ [e]) = (prune now ps ++ [e])%list.
Proof.
  intros He. unfold prune. rewrite List.filter_app. simpl.
  unfold inWindow at 2. rewrite He, Z.sub_diag. reflexivity.
Qed.

Lemma prune_timely (now clock : Z) (ps : list Event) :
  timely clock ps -> timely clock (prune now ps).
Proof.
  unfold timely. rewrite !Forall_forall. intros H e He.
  apply elem_of_prune in He as [He _]. now apply H.
Qed.

Lemma timely_mono (c1 c2 : Z) (ps : list Event) :
  c1 <= c2 -> timely c1 ps -> timely c2 ps.
Proof.
  intros Hle. unfold timely. intros H.
  eapply Forall_impl; [exact H|]. intros e He. simpl in He. lia.
Qed.

Lemma ordered_strongly (ps : list Event) :
  ordered ps <-> StronglySorted Z.le (map timestamp ps).
Proof.
  unfold ordered. split.
  - apply Sorted_StronglySorted. intros x y z. apply Z.le_trans.
  - apply StronglySorted_Sorted.
Qed.

Lemma ordered_prune (now : Z) (ps : list Event) :
  ordered ps -> ordered (prune now ps).
Proof.
  rewrite !ordered_strongly. unfold prune.
  induction ps as [|p ps IH]; simpl; intros H; [constructor|].
  apply StronglySorted_inv in H as [Hps Hp].
  destruct (inWindow now p).
  - simpl. constructor; [now apply IH|].
    rewrite Forall_forall in *. intros t Ht.
    apply list_elem_of_In, in_map_iff in Ht as [e [<- He]].
    apply filter_In in He as [He _].
    apply Hp. apply list_elem_of_In, in_map_iff. eauto.
  - now apply IH.
Qed.

Lemma ordered_snoc (clock : Z) (ps : list Event) (e : Event) :
  ordered ps -> timely clock ps -> clock <= timestamp e ->
  ordered (ps ++ [e]).
Proof.
  rewrite !ordered_strongly. intros Hs Ht Hle.
  rewrite map_app. apply StronglySorted_app. repeat split.
  - intros t1 t2 H1 H2. simpl in H2. apply list_elem_of_singleton in H2 as ->.
    apply list_elem_of_In, in_map_iff in H1 as [e1 [<- He1]].
    unfold timely in Ht. rewrite Forall_forall in Ht.
    apply list_elem_of_In in He1.
    specialize (Ht e1 He1). lia.
  - assumption.
  - simpl. repeat constructor.
Qed.

Lemma timely_snoc (clock : Z) (ps : list Event) (e : Event) :
  timely clock ps -> timestamp e <= clock -> timely clock (ps ++ [e]).
Proof.
  unfold timely. intros H He. apply Forall_app. split; [assumption|].
  now repeat constructor.
Qed.

End Window.

(** ** The profile store of the earlier revision *)

Section LegacyStore.

Import Part001.

Lemma legacy_analyze_store (now : Z) (req : Request) (fp : string)
    (cache : gmap string ClientData) :
  exists d,
    fst (analyze now req fp cache) = <[fp := d]> cache /\
    patterns d =
      prune now
        (match cache !! fp with Some d0 => patterns d0 | None => [] end
         ++ [newEvent now req]) /\
    lastSeen d = now.
Proof.
  unfold analyze. simpl. eexists. split; [reflexivity|]. simpl.
  split; [|reflexivity]. destruct (cache !! fp); reflexivity.
Qed.

(** Every profile of a reachable store is ordered, was last seen no later
    than the clock, and holds only events of the window that ended when it
    was last seen. *)
Lemma legacy_reachable_inv (clock : Z) (cache : gmap string ClientData) :
  reachable clock cache ->
  forall fp d, cache !! fp = Some d ->
    lastSeen d <= clock /\
    ordered (patterns d) /\
    timely (lastSeen d) (patterns d) /\
    fresh (lastSeen d) (patterns d).
Proof.
  induction 1 as [clock|clock cache now req fp0 Hr IH Hle|clock cache now Hr IH Hle];
    intros fp d Hd.
  - rewrite lookup_empty in Hd. discriminate.
  - destruct (legacy_analyze_store now req fp0 cache) as [d' [Hst [Hps Hls]]].
    rewrite Hst in Hd.
    destruct (decide (fp0 = fp)) as [->|Hne].
    + rewrite lookup_insert_eq in Hd. inversion Hd; subst d'; clear Hd.
      rewrite Hls, Hps.
      assert (Hold : ordered (match cache !! fp with
                               | Some d0 => patterns d0 | None => [] end) /\
                     timely now (match cache !! fp with
                                 | Some d0 => patterns d0 | None => [] end)).
      { destruct (cache !! fp) as [d0|] eqn:E.
        - destruct (IH fp d0 E) as [H1 [H2 [H3 _]]]. split; [assumption|].
          apply (timely_mono (lastSeen d0)); [lia|assumption].
        - split; [constructor|constructor]. }
      destruct Hold as [Hord Htim].
      split; [lia|]. split; [|split].
      * apply ordered_prune. apply (ordered_snoc now); auto. simpl. lia.
      * apply prune_timely. apply timely_snoc; auto. simpl. lia.
      * apply prune_fresh.
    + rewrite lookup_insert_ne in Hd by assumption.
      destruct (IH fp d Hd) as [H1 H2]. split; [lia|assumption].
  - apply sweep_survivor in Hd as [Hd _].
    destruct (IH fp d Hd) as [H1 H2]. split; [lia|assumption].
Qed.

Lemma legacy_analyze_profile (clock now : Z) (req : Request) (fp : string)
    (cache : gmap string ClientData) :
  reachable clock cache -> clock <= now ->
  exists d,
    fst (analyze now req fp cache) !! fp = Some d /\
    ordered (patterns d) /\
    last (patterns d) = Some (newEvent now req) /\
    lastSeen d = now.
Proof.
  intros Hr Hle.
  destruct (legacy_analyze_store now req fp cache) as [d [Hst [Hps Hls]]].
  exists d. rewrite Hst, lookup_insert_eq. split; [reflexivity|].
  pose proof (legacy_reachable_inv now _ (reach_analyze _ _ now req fp Hr Hle)
                fp d) as Hinv.
  rewrite Hst, lookup_insert_eq in Hinv.
  destruct (Hinv eq_refl) as [_ [Hord _]].
  split; [assumption|]. split; [|assumption].
  rewrite Hps, prune_snoc by reflexivity. apply last_snoc.
Qed.


End LegacyStore.

(** ** The profile store of the current revision *)

Section Store.

Import AntiBot.

(** Every call of [analyze] throws: [calculateBehaviorScore] is not defined,
    and with two or more events kept [analyzeBehaviorPatterns] throws before
    it.  What the call leaves behind is the store with the pushed and pruned
    events written into the profile it found, if it found one. *)
Lemma analyze_effect (now : Z) (req : Request) (fp : string)
    (cache : gmap string ClientData) :
  exists msg,
    analyze now req fp cache
    = (match cache !! fp with
       | Some d =>
           <[fp := {| patterns := prune now (patterns d ++ [newEvent now req]);
                      lastSeen := lastSeen d;
                      cd_score := cd_score d;
                      cd_suspicious := cd_suspicious d |}]> cache
       | None => cache
       end, Throw msg).
Proof.
  unfold analyze.
  destruct (cache !! fp) as [d|];
    destruct (analyzeBehaviorPatterns _) as [a|msg];
    unfold calculateBehaviorScore; eexists; reflexivity.
Qed.


(** No call stores a profile, so the store never leaves the empty map. *)
Lemma reachable_empty (clock : Z) (cache : gmap string ClientData) :
  reachable clock cache -> cache = ∅.
Proof.
  induction 1 as [clock|clock cache now req fp Hr IH Hle]; [reflexivity|].
  subst cache. destruct (analyze_effect now req fp ∅) as [msg ->].
  rewrite lookup_empty. reflexivity.
Qed.

End Store.

(** C10: in a store of the earlier revision reached by calls and sweeps whose
    clock readings never decrease, a call of [analyze] (every call returns)
    leaves, under its fingerprint, a profile whose events are ordered by
    time, whose last event is the one just recorded (stamped [now]) and
    whose [lastSeen] is [now]; pruning never drops the newest event. *)
Theorem analyze_profile_invariant (clock now : Z) (req : Request) (fp : string)
    (cache : gmap string Part001.ClientData) :
  clock <= now ->
  Part001.reachable clock cache ->
  exists d,
    fst (Part001.analyze now req fp cache) !! fp = Some d /\
    ordered (Part001.patterns d) /\
    last (Part001.patterns d) = Some (Part001.newEvent now req) /\
    timestamp (Part001.newEvent now req) = now /\
    Part001.lastSeen d = now.
Proof.
  intros Hle Hr.
  destruct (legacy_analyze_profile clock now req fp cache Hr Hle)
    as [d [H1 [H2 [H3 H4]]]].
  exists d. repeat split; assumption.
Qed.

(** The store of the profile seen at 0 and four minutes later. *)
Lemma aged_cache_reachable : Part001.reachable 240000 Samples.agedCache.
Proof.
  unfold Samples.agedCache.
  apply (Part001.reach_analyze 0); [|lia].
  apply (Part001.reach_analyze 0); [|lia].
  apply Part001.reach_start.
Defined.

Lemma analyze_profile_invariant_witness :
  240000 <= 250000 /\
  Part001.reachable 240000 Samples.agedCache /\
  exists d,
    fst (Part001.analyze 250000 (Samples.visit 3 "/loading") "client"
           Samples.agedCache) !! "client" = Some d /\
    ordered (Part001.patterns d) /\
    last (Part001.patterns d)
    = Some (Part001.newEvent 250000 (Samples.visit 3 "/loading")) /\
    timestamp (Part001.newEvent 250000 (Samples.visit 3 "/loading")) = 250000 /\
    Part001.lastSeen d = 250000.
Proof.
  assert (H0 : 240000 <= 250000) by lia.
  split; [exact H0|]. split; [exact aged_cache_reachable|].
  exact (analyze_profile_invariant 240000 250000 (Samples.visit 3 "/loading")
           "client" Samples.agedCache H0 aged_cache_reachable).
Defined.

(** ** The retention window *)




(** ** Bounds on the behaviour factors *)

Section Factors.

Local Open Scope Q_scope.

Lemma Qdiv_nonneg (x y : Q) : 0 <= x -> 0 <= y -> 0 <= x / y.
Proof.
  intros Hx Hy. unfold Qdiv. apply Qmult_le_0_compat; [assumption|].
  now apply Qinv_le_0_compat.
Qed.

Lemma ofZ_nonneg (z : Z) : (0 <= z)%Z -> 0 <= ofZ z.
Proof.
  intros H. unfold ofZ. change 0 with (inject_Z 0). now rewrite <- Zle_Qle.
Qed.

Lemma ofLen_nonneg {A} (l : list A) : 0 <= ofLen l.
Proof. unfold ofLen. apply ofZ_nonneg. lia. Qed.

Lemma Qmin_unit (x : Q) : 0 <= x -> 0 <= Qmin x 1 <= 1.
Proof.
  intros Hx. split; [|apply Q.le_min_r].
  apply Q.min_glb; [assumption|lra].
Qed.

(** The running sum of absolute deviations never goes below zero. *)
Lemma deviation_nonneg (avg : Q) (l : list Q) (acc : Q) :
  0 <= acc ->
  0 <= fold_left (fun acc interval => acc + Qabs (interval - avg)) l acc.
Proof.
  revert acc. induction l as [|x l IH]; intros acc Hacc; cbn [fold_left];
    [assumption|].
  apply IH. generalize (Qabs (x - avg)) (Qabs_nonneg (x - avg)).
  intros dev Hdev. lra.
Qed.

Lemma decay_step (b : bool) (c : Q) :
  0 <= c -> 0 <= (if b then c * (8 # 10) else c) <= c.
Proof. intros Hc. destruct b; lra. Qed.

Lemma headerDecay_range (hs : list RelevantHeaders) (c : Q) :
  0 <= c -> 0 <= Part001.headerDecay c hs <= c.
Proof.
  revert c. induction hs as [|prev hs IH]; intros c Hc;
    cbn [Part001.headerDecay]; [lra|].
  destruct hs as [|curr rest]; [lra|].
  pose proof (decay_step (strictNe (language prev) (language curr)) c Hc)
    as [H1 H1'].
  pose proof (decay_step (strictNe (encoding prev) (encoding curr)) _ H1)
    as [H2 H2'].
  destruct (IH _ H2) as [Hlo Hhi]. split; [exact Hlo|].
  eapply Qle_trans; [exact Hhi|]. eapply Qle_trans; [exact H2'|exact H1'].
Qed.

Lemma headerConsistency_range (ps : list Event) :
  0 <= Part001.analyzeHeaderConsistency ps <= 1.
Proof.
  unfold Part001.analyzeHeaderConsistency. apply headerDecay_range. lra.
Qed.

Lemma legacy_timing_range (ps : list Event) :
  0 <= Part001.analyzeTimingPatterns ps <= 1.
Proof.
  unfold Part001.analyzeTimingPatterns. apply Qmin_unit.
  apply Qdiv_nonneg; [|lra].
  apply Qdiv_nonneg; [|apply ofLen_nonneg].
  apply deviation_nonneg. lra.
Qed.

Lemma legacy_navigation_range (ps : list Event) :
  0 <= Part001.analyzeNavigationPatterns ps <= 1.
Proof.
  unfold Part001.analyzeNavigationPatterns.
  destruct (_ && _)%bool; destruct (negb _); lra.
Qed.

Lemma legacy_confidence_range (ps : list Event) :
  0 <= Part001.confidence (Part001.analyzeBehaviorPatterns ps) <= 1.
Proof.
  unfold Part001.analyzeBehaviorPatterns.
  destruct (Nat.ltb _ 2); simpl; [lra|].
  pose proof (legacy_timing_range ps).
  pose proof (legacy_navigation_range ps).
  pose proof (headerConsistency_range ps).
  unfold Qdiv. change (/ 3) with (1 # 3). lra.
Qed.

Lemma timing_values (ps : list Event) :
  let t := AntiBot.analyzeTimingPatterns ps in
  t = 0 \/ t = 3 # 10 \/ t = 5 # 10 \/ t = 1.
Proof.
  unfold AntiBot.analyzeTimingPatterns.
  destruct (Nat.eqb _ 0); [tauto|].
  destruct (Qltb _ _), (existsb _ _); simpl; tauto.
Qed.

Lemma timing_range (ps : list Event) :
  0 <= AntiBot.analyzeTimingPatterns ps <= 1.
Proof.
  destruct (timing_values ps) as [H|[H|[H|H]]]; rewrite H; lra.
Qed.

Lemma repetitionsOf_nonneg (paths : list string) :
  (0 <= AntiBot.repetitionsOf paths)%Z.
Proof.
  induction paths as [|a paths IH]; simpl; [lia|].
  destruct paths as [|b [|c rest]]; try lia.
  destruct (_ && _)%bool; lia.
Qed.

Lemma repetition_range (paths : list string) :
  0 <= AntiBot.calculateRepetition paths <= 1.
Proof.
  unfold AntiBot.calculateRepetition.
  destruct (Nat.ltb (length paths) 3) eqn:E; [lra|].
  apply Nat.ltb_ge in E. apply Qmin_unit. apply Qdiv_nonneg.
  - apply ofZ_nonneg, repetitionsOf_nonneg.
  - apply ofZ_nonneg. lia.
Qed.

Lemma navigation_range (ps : list Event) (navigation : Q) :
  AntiBot.analyzeNavigationPatterns ps = Ok navigation ->
  0 <= navigation <= 1.
Proof.
  unfold AntiBot.analyzeNavigationPatterns.
  pose proof (repetition_range (map ev_path ps)) as Hr.
  destruct (AntiBot.hasLogicalFlow _) as [logical|msg]; simpl; [|discriminate].
  intros [= <-]. destruct (negb logical); lra.
Qed.

Lemma confidence_range (ps : list Event) (a : AntiBot.Analysis) :
  AntiBot.analyzeBehaviorPatterns ps = Ok a ->
  0 <= AntiBot.confidence a <= 1.
Proof.
  unfold AntiBot.analyzeBehaviorPatterns.
  destruct (Nat.ltb _ 2).
  - intros [= <-]. simpl. lra.
  - destruct (AntiBot.analyzeNavigationPatterns ps) as [nav|msg]; cbn [bind];
      unfold AntiBot.analyzeHeaderConsistency; cbn [bind]; discriminate.
Qed.

(** With two or more events [analyzeBehaviorPatterns] of [antiBot.js] does
    not return. *)
Lemma analysis_throws (ps : list Event) :
  (2 <= length ps)%nat ->
  exists msg, AntiBot.analyzeBehaviorPatterns ps = Throw msg.
Proof.
  intros Hlen. unfold AntiBot.analyzeBehaviorPatterns.
  assert (E : Nat.ltb (length ps) 2 = false) by (apply Nat.ltb_ge; exact Hlen).
  rewrite E.
  destruct (AntiBot.analyzeNavigationPatterns ps) as [nav|msg]; cbn [bind];
    unfold AntiBot.analyzeHeaderConsistency; cbn [bind]; eauto.
Qed.

End Factors.

(** C3: the confidence [analyzeBehaviorPatterns] returns lies in [0,1]: in
    the earlier revision for every event history, in [antiBot.js] whenever
    the function returns, which it does for the histories of fewer than two
    events only (with two or more it throws).  For a history of fewer than
    two events both revisions return, without an exception, the default
    confidence (0.7 with zero suspicion and all factors 1 in [antiBot.js],
    0.5 in the earlier revision). *)
Theorem confidence_bounded (ps : list Event) :
  (forall a, AntiBot.analyzeBehaviorPatterns ps = Ok a ->
             (0 <= AntiBot.confidence a <= 1)%Q) /\
  (0 <= Part001.confidence (Part001.analyzeBehaviorPatterns ps) <= 1)%Q /\
  ((length ps < 2)%nat ->
   AntiBot.analyzeBehaviorPatterns ps
   = Ok (AntiBot.mkAnalysis (7 # 10) 0 (mkFactors 1 1 1)) /\
   Part001.analyzeBehaviorPatterns ps = Part001.mkAnalysis true (5 # 10) None) /\
  ((2 <= length ps)%nat ->
   exists msg, AntiBot.analyzeBehaviorPatterns ps = Throw msg).
Proof.
  split; [|split; [|split]].
  - intros a Ha. exact (confidence_range ps a Ha).
  - apply legacy_confidence_range.
  - intros Hlen. apply Nat.ltb_lt in Hlen.
    unfold AntiBot.analyzeBehaviorPatterns, Part001.analyzeBehaviorPatterns.
    rewrite Hlen. split; reflexivity.
  - apply analysis_throws.
Qed.

Lemma confidence_bounded_witness :
  (0 <= Part001.confidence (Part001.analyzeBehaviorPatterns Cases.burst) <= 1)%Q /\
  (length [AntiBot.newEvent 1000 (Samples.visit 1 "/check-ip")] < 2)%nat /\
  AntiBot.analyzeBehaviorPatterns [AntiBot.newEvent 1000 (Samples.visit 1 "/check-ip")]
  = Ok (AntiBot.mkAnalysis (7 # 10) 0 (mkFactors 1 1 1)) /\
  Part001.analyzeBehaviorPatterns [AntiBot.newEvent 1000 (Samples.visit 1 "/check-ip")]
  = Part001.mkAnalysis true (5 # 10) None /\
  (0 <= 7 # 10 <= 1)%Q.
Proof.
  assert (H1 : AntiBot.analyzeBehaviorPatterns
                 [AntiBot.newEvent 1000 (Samples.visit 1 "/check-ip")]
               = Ok (AntiBot.mkAnalysis (7 # 10) 0 (mkFactors 1 1 1)))
    by reflexivity.
  assert (H2 : (length [AntiBot.newEvent 1000 (Samples.visit 1 "/check-ip")] < 2)%nat)
    by (simpl; lia).
  split; [exact (proj1 (proj2 (confidence_bounded Cases.burst)))|].
  split; [exact H2|].
  split; [exact (proj1 (proj1 (proj2 (proj2 (confidence_bounded _))) H2))|].
  split; [exact (proj2 (proj1 (proj2 (proj2 (confidence_bounded _))) H2))|].
  exact (proj1 (confidence_bounded _) _ H1).
Defined.

(** ** Exceptions *)

Section Exceptions.

Import AntiBot.

(** The only strings contained in ["/"] are the empty one and ["/"]. *)
Lemma includes_root (a : string) :
  includes "/" a = true <-> a = EmptyString \/ a = "/".
Proof.
  split.
  - destruct a as [|c [|c' a]]; simpl.
    + auto.
    + rewrite !orb_false_r, andb_true_r. intros H.
      apply Ascii.eqb_eq in H. subst. auto.
    + rewrite andb_false_r. discriminate.
  - intros [->| ->]; reflexivity.
Qed.

(** The first flow has one element: when the previous path is contained in
    ["/"], its second element is read and is not there. *)
Lemma someFlow_after_root (a b : string) :
  includes "/" a = true -> someFlow validFlows a b = Throw undefinedIncludes.
Proof.
  intros H. unfold validFlows. cbn [someFlow]. unfold flowAccepts at 1.
  cbn [lookup list_lookup]. rewrite H. reflexivity.
Qed.

Lemma someFlow_elsewhere (a b : string) :
  includes "/" a = false -> exists r, someFlow validFlows a b = Ok r.
Proof.
  intros H. unfold validFlows. cbn [someFlow]. unfold flowAccepts.
  cbn [lookup list_lookup]. rewrite H. cbn [bind].
  repeat match goal with
    | |- context [if includes ?x ?y then _ else _] =>
        destruct (includes x y); cbn [bind]
    end; eauto.
Qed.

(** [hasLogicalFlow] returns on every path list that does not pass through
    the root (or an empty path) before its last element. *)
Lemma hasLogicalFlow_returns (paths : list string) :
  Forall (fun p => includes "/" p = false) (removelast paths) ->
  exists r, hasLogicalFlow paths = Ok r.
Proof.
  induction paths as [|a paths IH]; intros H; [simpl; eauto|].
  destruct paths as [|b rest]; [simpl; eauto|].
  cbn [removelast] in H. apply Forall_cons in H as [Ha Hrest].
  cbn [hasLogicalFlow].
  destruct (someFlow_elsewhere a b Ha) as [r Hr]. rewrite Hr. cbn [bind].
  destruct r; [|eauto]. apply IH. exact Hrest.
Qed.

Lemma someFlow_message (flows : list (list string)) (a b msg : string) :
  someFlow flows a b = Throw msg -> msg = undefinedIncludes.
Proof.
  induction flows as [|flow flows IH]; cbn [someFlow]; [discriminate|].
  unfold flowAccepts.
  destruct (flow !! 0%nat) as [f0|]; cbn [bind]; [|now intros [= <-]].
  destruct (includes f0 a); cbn [bind]; [|exact IH].
  destruct (flow !! 1%nat) as [f1|]; cbn [bind]; [|now intros [= <-]].
  destruct (includes f1 b); [discriminate|exact IH].
Qed.

Lemma hasLogicalFlow_message (paths : list string) (msg : string) :
  hasLogicalFlow paths = Throw msg -> msg = undefinedIncludes.
Proof.
  induction paths as [|a paths IH]; [discriminate|].
  destruct paths as [|b rest]; [discriminate|].
  cbn [hasLogicalFlow].
  destruct (someFlow validFlows a b) as [ok|m] eqn:E; cbn [bind].
  - destruct ok; [exact IH|discriminate].
  - intros [= <-]. exact (someFlow_message _ _ _ _ E).
Qed.

(** The only exception navigation can raise is the one of [hasLogicalFlow]. *)
Lemma navigation_message (ps : list Event) (msg : string) :
  analyzeNavigationPatterns ps = Throw msg -> msg = undefinedIncludes.
Proof.
  unfold analyzeNavigationPatterns.
  destruct (hasLogicalFlow _) as [ok|m] eqn:E; cbn [bind]; [discriminate|].
  intros [= <-]. exact (hasLogicalFlow_message _ _ E).
Qed.

Lemma analysis_message (ps : list Event) :
  (2 <= length ps)%nat ->
  analyzeBehaviorPatterns ps = Throw undefinedIncludes \/
  analyzeBehaviorPatterns ps = Throw (notAFunction "analyzeHeaderConsistency").
Proof.
  intros Hlen. unfold analyzeBehaviorPatterns.
  assert (E : Nat.ltb (length ps) 2 = false) by (apply Nat.ltb_ge; exact Hlen).
  rewrite E.
  destruct (analyzeNavigationPatterns ps) as [nav|msg] eqn:En; cbn [bind].
  - right. reflexivity.
  - left. rewrite (navigation_message _ _ En). reflexivity.
Qed.

(** C1 fails in [antiBot.js], on two counts.  The class defines neither
    [calculateBehaviorScore] nor [analyzeHeaderConsistency]: every call of
    [analyze] throws, [analyzeBehaviorPatterns] throws on every history of
    two or more events, and [detectBot] rejects its promise for every
    request that is off the fast path and scores 20 or more, the first
    request of an ordinary browser included (its state is left as it was).
    And [hasLogicalFlow] reads the second element of the one-element flow:
    it throws on every path list that starts at the root and has a second
    element, and so does [analyzeBehaviorPatterns] on such a history. *)
Theorem analysis_throws_on_every_request :
  (forall curr rest,
      hasLogicalFlow ("/" :: curr :: rest) = Throw undefinedIncludes) /\
  (forall p q rest,
      ev_path p = "/" ->
      analyzeBehaviorPatterns (p :: q :: rest) = Throw undefinedIncludes) /\
  (forall ps,
      (2 <= length ps)%nat ->
      analyzeBehaviorPatterns ps = Throw undefinedIncludes \/
      analyzeBehaviorPatterns ps
      = Throw (notAFunction "analyzeHeaderConsistency")) /\
  (forall now req fp cache,
      exists msg, snd (analyze now req fp cache) = Throw msg) /\
  (forall hash now req st,
      oid req ∉ legitimateClients st ->
      20 <= score (validateBrowserEnvironment req) ->
      exists msg, snd (detectBot hash now req st) = Throw msg) /\
  Cases.firstVisit
  = (Samples.emptyState, Throw (notAFunction "calculateBehaviorScore")).
Proof.
  split; [|split; [|split; [|split; [|split]]]].
  - intros curr rest. cbn [hasLogicalFlow].
    rewrite someFlow_after_root by reflexivity. reflexivity.
  - intros p q rest Hp. unfold analyzeBehaviorPatterns.
    cbn [length Nat.ltb Nat.leb]. unfold analyzeNavigationPatterns.
    cbn [map]. rewrite Hp. cbn [hasLogicalFlow].
    rewrite someFlow_after_root by reflexivity. reflexivity.
  - exact analysis_message.
  - intros now req fp cache.
    destruct (analyze_effect now req fp cache) as [msg ->]. eauto.
  - intros hash now req st Hlegit H20. unfold detectBot.
    rewrite bool_decide_eq_false_2 by assumption.
    apply Z.ltb_ge in H20. rewrite H20.
    destruct (analyze_effect now req (generateFingerprint hash req)
                (behaviorCache st)) as [msg ->].
    eauto.
  - vm_compute. reflexivity.
Qed.

End Exceptions.

(** ** Range of the environment score *)

Section EnvironmentScore.

Ltac split_tests :=
  repeat match goal with
    | |- context [if ?b then _ else _] => destruct b
    end.

Lemma points_range (b : bool) (n : Z) :
  0 <= n -> 0 <= AntiBot.points b n <= n.
Proof. intros Hn. unfold AntiBot.points. destruct b; lia. Qed.

Lemma calculateHeaderScore_range (h : gmap string string) :
  0 <= AntiBot.calculateHeaderScore h <= 65 /\
  (truthy (h !! "user-agent") = true -> 20 <= AntiBot.calculateHeaderScore h).
Proof.
  unfold AntiBot.calculateHeaderScore, AntiBot.points.
  split; [split_tests; lia|]. intros ->. split_tests; lia.
Qed.

Lemma analyzeUserAgent_range (ua : option string) :
  -50 <= AntiBot.analyzeUserAgent ua <= 40 /\
  (truthy ua = true -> 0 <= AntiBot.analyzeUserAgent ua).
Proof.
  unfold AntiBot.analyzeUserAgent, AntiBot.points.
  destruct (truthy ua); simpl negb; cbv iota.
  - split; [|intros _]; split_tests; lia.
  - split; [lia|discriminate].
Qed.

Lemma checkConsistency_range (h : gmap string string) :
  0 <= AntiBot.checkConsistency h <= 50.
Proof.
  unfold AntiBot.checkConsistency, AntiBot.points. split_tests; lia.
Qed.

(** A loop that takes [step] off the score at some of its turns. *)
Lemma penalty_fold_range (P : string -> bool) (step : Z)
    (l : list string) (start : Z) :
  0 <= step ->
  start - step * Z.of_nat (length l)
  <= fold_left (fun score x => if P x then score - step else score) l start
  <= start.
Proof.
  intros Hstep. revert start.
  induction l as [|x l IH]; intros start; cbn [fold_left length]; [lia|].
  specialize (IH (if P x then start - step else start)).
  destruct (P x); lia.
Qed.

Lemma bonus_fold_range {A} (P : A -> bool) (step : Z) (l : list A) (start : Z) :
  0 <= step ->
  start
  <= fold_left (fun score x => if P x then score + step else score) l start
  <= start + step * Z.of_nat (length l).
Proof.
  intros Hstep. revert start.
  induction l as [|x l IH]; intros start; cbn [fold_left length]; [lia|].
  specialize (IH (if P x then start + step else start)).
  destruct (P x); lia.
Qed.

Lemma validateSpecialHeaders_range (h : gmap string string) :
  -630 <= AntiBot.validateSpecialHeaders h <= 0 /\
  (truthy (h !! "user-agent") = false -> -30 <= AntiBot.validateSpecialHeaders h).
Proof.
  unfold AntiBot.validateSpecialHeaders. split.
  - pose proof (penalty_fold_range
                  (includes (AntiBot.lowerOrEmpty (h !! "user-agent")))
                  50 AntiBot.botIndicators 0 ltac:(lia)) as Hfold.
    change (Z.of_nat (length AntiBot.botIndicators)) with 12 in Hfold.
    split_tests; lia.
  - intros Hua.
    assert (Hlow : AntiBot.lowerOrEmpty (h !! "user-agent") = EmptyString).
    { destruct (h !! "user-agent") as [[|c s]|]; [reflexivity|discriminate|reflexivity]. }
    rewrite Hlow.
    change (fold_left _ AntiBot.botIndicators 0) with 0.
    split_tests; lia.
Qed.

Lemma legacy_headerPoints_range (h : gmap string string) (score : Z) (header : string) :
  score <= Part001.headerPoints h score header <= score + 15.
Proof. unfold Part001.headerPoints. split_tests; lia. Qed.

Lemma legacy_header_loop_range (h : gmap string string) (l : list string) (start : Z) :
  start <= fold_left (Part001.headerPoints h) l start
        <= start + 15 * Z.of_nat (length l).
Proof.
  revert start. induction l as [|x l IH]; intros start;
    cbn [fold_left length]; [lia|].
  specialize (IH (Part001.headerPoints h start x)).
  pose proof (legacy_headerPoints_range h start x). lia.
Qed.

Lemma legacy_analyzeUserAgent_range (ua : string) :
  0 <= Part001.analyzeUserAgent ua <= 50.
Proof.
  unfold Part001.analyzeUserAgent.
  pose proof (bonus_fold_range (fun p => Regex.test p ua) 5
                Part001.uaPatterns 0 ltac:(lia)) as H.
  change (Z.of_nat (length Part001.uaPatterns)) with 10 in H. lia.
Qed.

(** C8, as the code has it: the environment score is the plain sum of the
    rubric and is not clamped to [0, maxScore].  In [antiBot.js] it lies
    between -610 and 155, in the earlier revision between 0 and 185. *)
Theorem environment_score_range (req : Request) :
  -610 <= AntiBot.score (AntiBot.validateBrowserEnvironment req) <= 155 /\
  0 <= Part001.score (Part001.validateBrowserEnvironment req) <= 185.
Proof.
  split.
  - unfold AntiBot.validateBrowserEnvironment. cbn [AntiBot.score].
    destruct (calculateHeaderScore_range (headers req)) as [H1 H1'].
    destruct (analyzeUserAgent_range (headers req !! "user-agent")) as [H2 H2'].
    pose proof (checkConsistency_range (headers req)) as H3.
    destruct (validateSpecialHeaders_range (headers req)) as [H4 H4'].
    destruct (truthy (headers req !! "user-agent")).
    + specialize (H1' eq_refl). specialize (H2' eq_refl). lia.
    + specialize (H4' eq_refl). lia.
  - unfold Part001.validateBrowserEnvironment. cbn [Part001.score].
    pose proof (legacy_header_loop_range (headers req) Part001.requiredHeaders 0) as H1.
    change (Z.of_nat (length Part001.requiredHeaders)) with 9 in H1.
    pose proof (legacy_analyzeUserAgent_range
                  (orEmpty (headers req !! "user-agent"))) as H2.
    destruct (truthy (headers req !! "user-agent")); lia.
Qed.

(** Both ends of both ranges are reached, and an ordinary desktop browser
    that sends its client hints scores 125. *)
Lemma environment_score_extremes :
  AntiBot.score (AntiBot.validateBrowserEnvironment Samples.modernRequest) = 125 /\
  AntiBot.score (AntiBot.validateBrowserEnvironment Samples.automationRequest) = -610 /\
  AntiBot.score (AntiBot.validateBrowserEnvironment Samples.everythingRequest) = 155 /\
  Part001.score (Part001.validateBrowserEnvironment Samples.bareRequest) = 0 /\
  Part001.score (Part001.validateBrowserEnvironment Samples.legacyRequest) = 185.
Proof. repeat split; vm_compute; reflexivity. Qed.

(** The claim of C8 fails: without any header the score of [antiBot.js] is
    -50, and a request can score 155, above [maxScore]. *)
Lemma environment_score_leaves_nominal_range :
  ~ (0 <= AntiBot.score (AntiBot.validateBrowserEnvironment Samples.bareRequest) <= 100) /\
  ~ (0 <= AntiBot.score (AntiBot.validateBrowserEnvironment Samples.everythingRequest) <= 100).
Proof.
  split.
  - assert (H : AntiBot.score (AntiBot.validateBrowserEnvironment Samples.bareRequest)
                = -50) by (vm_compute; reflexivity).
    rewrite H. lia.
  - assert (H : AntiBot.score
                  (AntiBot.validateBrowserEnvironment Samples.everythingRequest)
                = 155) by (vm_compute; reflexivity).
    rewrite H. lia.
Qed.

End EnvironmentScore.

(** ** The scenarios of the specification, run on the embedding *)

Section Scenarios.

Import Samples.

(** A client without user-agent and client hints is rejected on its
    environment. *)
Example scenario_no_user_agent :
  AntiBot.reason (verdictOf (AntiBot.detectBot digest 0 bareRequest emptyState))
  = Some invalid_browser_environment.
Proof. vm_compute. reflexivity. Qed.

(** A single request with ordinary browser headers passes the environment
    check and is then lost in the behaviour analysis: the promise is
    rejected and nothing is stored. *)
Example scenario_single_request :
  AntiBot.detectBot digest 1000 (visit 1 "/check-ip") emptyState
  = (emptyState, Throw (AntiBot.notAFunction "calculateBehaviorScore")).
Proof. vm_compute. reflexivity. Qed.

(** Ten requests for one path at 10 ms intervals: the timing factor is at
    its minimum; the earlier revision finds the history not human-like, the
    current one throws on the header factor. *)
Example scenario_regular_client :
  let ps := map (fun k => AntiBot.newEvent (1000 + 10 * Z.of_nat k)
                            (visit k "/check-ip")) (seq 0 10) in
  AntiBot.analyzeTimingPatterns ps = 0%Q /\
  Part001.humanLike (Part001.analyzeBehaviorPatterns ps) = false /\
  AntiBot.analyzeBehaviorPatterns ps
  = Throw (AntiBot.notAFunction "analyzeHeaderConsistency").
Proof. vm_compute. repeat split; reflexivity. Qed.

(** An event six minutes old is pruned before two recent ones, two minutes
    apart, are analysed. *)
Example scenario_old_event_pruned :
  let old := AntiBot.newEvent 0 (visit 1 "/check-ip") in
  let recent := AntiBot.newEvent 240000 (visit 2 "/check-ip") in
  let cache : gmap string AntiBot.ClientData :=
    {[ "client" := AntiBot.mkClientData [old; recent] 240000 0 0 ]} in
  exists d,
    fst (AntiBot.analyze 360000 (visit 3 "/check-ip") "client" cache) !! "client"
    = Some d /\
    map timestamp (AntiBot.patterns d) = [240000; 360000].
Proof. eexists. split; [vm_compute; reflexivity|reflexivity]. Qed.

End Scenarios.


(** * Further properties of the middleware *)

(** ** Environment score and exits of [detectBot] in [antiBot.js] *)

Section Admission.

Import AntiBot.

Variable sha256_hex : string -> string.

Ltac fields :=
  cbn [isBot v_confidence reason v_score v_details v_fingerprint
       legitimateClients behaviorCache fst snd].

Lemma checkConsistency_without_user_agent (h : gmap string string) :
  truthy (h !! "user-agent") = false -> 0 <= checkConsistency h <= 10.
Proof.
  intros Hua. unfold checkConsistency, points.
  rewrite Hua, andb_false_r.
  repeat match goal with
    | |- context [if ?b then _ else _] => destruct b
    end; lia.
Qed.

Lemma calculateHeaderScore_without_user_agent (h : gmap string string) :
  truthy (h !! "user-agent") = false -> 0 <= calculateHeaderScore h <= 45.
Proof.
  intros Hua. unfold calculateHeaderScore, points. rewrite Hua.
  repeat match goal with
    | |- context [if ?b then _ else _] => destruct b
    end; lia.
Qed.

(** X1: a request without a (non-empty) user-agent header scores at most 5
    whatever else it sends, so, off the fast path, [detectBot] always answers
    [invalid_browser_environment] and leaves the state alone. *)
Theorem missing_user_agent_is_rejected (now : Z) (req : Request) (st : State) :
  truthy (headers req !! "user-agent") = false ->
  oid req ∉ legitimateClients st ->
  -80 <= score (validateBrowserEnvironment req) <= 5 /\
  exists v,
    detectBot sha256_hex now req st = (st, Ok v) /\
    isBot v = true /\
    reason v = Some invalid_browser_environment /\
    v_score v = Some (score (validateBrowserEnvironment req)).
Proof.
  intros Hua Hlegit.
  assert (Hs : -80 <= score (validateBrowserEnvironment req) <= 5).
  { unfold validateBrowserEnvironment. cbn [score].
    pose proof (calculateHeaderScore_without_user_agent _ Hua) as H1.
    pose proof (checkConsistency_without_user_agent _ Hua) as H3.
    destruct (validateSpecialHeaders_range (headers req)) as [H4 H4'].
    specialize (H4' Hua).
    assert (H2 : analyzeUserAgent (headers req !! "user-agent") = -50).
    { unfold analyzeUserAgent. rewrite Hua. reflexivity. }
    rewrite H2. lia. }
  split; [exact Hs|].
  unfold detectBot. rewrite bool_decide_eq_false_2 by assumption.
  assert (Hlt : (score (validateBrowserEnvironment req) <? 20) = true)
    by (apply Z.ltb_lt; lia).
  rewrite Hlt. eexists. split; [reflexivity|]. simpl. auto.
Qed.

Lemma penalty_fold_hit (P : string -> bool) (step : Z) (l : list string)
    (start : Z) (x : string) :
  0 <= step -> x ∈ l -> P x = true ->
  fold_left (fun score y => if P y then score - step else score) l start
  <= start - step.
Proof.
  intros Hstep Hin Hx. revert start.
  induction l as [|y l IH]; intros start; [inversion Hin|].
  cbn [fold_left]. apply elem_of_cons in Hin as [<-|Hin].
  - rewrite Hx.
    pose proof (penalty_fold_range P step l (start - step) Hstep). lia.
  - specialize (IH Hin (if P y then start - step else start)).
    destruct (P y); lia.
Qed.

(** X2: the denylist is matched on the lower-cased user-agent: a user-agent
    that contains one of the indicators in any letter case loses at least 50
    points, and the whole score cannot exceed 105. *)
Theorem automation_indicator_costs_fifty (req : Request) (ua indicator : string) :
  headers req !! "user-agent" = Some ua ->
  indicator ∈ botIndicators ->
  includes (toLowerCase ua) indicator = true ->
  validateSpecialHeaders (headers req) <= -50 /\
  score (validateBrowserEnvironment req) <= 105.
Proof.
  intros Hua Hin Hinc.
  assert (Hsp : validateSpecialHeaders (headers req) <= -50).
  { unfold validateSpecialHeaders. rewrite Hua. cbn [lowerOrEmpty].
    pose proof (penalty_fold_hit (includes (toLowerCase ua)) 50 botIndicators 0
                  indicator ltac:(lia) Hin Hinc) as Hfold.
    repeat match goal with
      | |- context [if ?b then _ else _] => destruct b
      end; lia. }
  split; [exact Hsp|].
  unfold validateBrowserEnvironment. cbn [score].
  destruct (calculateHeaderScore_range (headers req)) as [H1 _].
  destruct (analyzeUserAgent_range (headers req !! "user-agent")) as [H2 _].
  pose proof (checkConsistency_range (headers req)) as H3. lia.
Qed.

(** X3: [detectBot] of [antiBot.js] returns a verdict at its first two
    exits only: the fast path for a request object already in the legitimate
    set, and the hard fail for an environment score below 20; in both the
    state is left as it was.  Every other call rejects its promise, so no
    request is ever admitted: the legitimate set never grows. *)
Theorem verdict_only_before_analysis (now : Z) (req : Request) (st st' : State)
    (r : Result Verdict) :
  detectBot sha256_hex now req st = (st', r) ->
  legitimateClients st' = legitimateClients st /\
  (forall v, r = Ok v ->
     st' = st /\
     ((oid req ∈ legitimateClients st /\
       v = mkVerdict false 1 None None NoDetails None) \/
      ((oid req ∉ legitimateClients st) /\
       score (validateBrowserEnvironment req) < 20 /\
       isBot v = true /\
       reason v = Some invalid_browser_environment))) /\
  ((oid req ∉ legitimateClients st) ->
   20 <= score (validateBrowserEnvironment req) ->
   exists msg, r = Throw msg).
Proof.
  unfold detectBot. intros H.
  destruct (bool_decide (oid req ∈ legitimateClients st)) eqn:El.
  { apply bool_decide_eq_true in El. inversion H; subst.
    split; [reflexivity|]. split.
    - intros v [= <-]. split; [reflexivity|]. left. auto.
    - intros Hn. contradiction. }
  apply bool_decide_eq_false in El.
  destruct (score (validateBrowserEnvironment req) <? 20) eqn:E20.
  { apply Z.ltb_lt in E20. inversion H; subst.
    split; [reflexivity|]. split.
    - intros v [= <-]. split; [reflexivity|]. right. fields. auto.
    - intros _ H20. lia. }
  destruct (analyze_effect now req (generateFingerprint sha256_hex req)
              (behaviorCache st)) as [msg Ha].
  rewrite Ha in H. inversion H; subst.
  fields. split; [reflexivity|]. split; [discriminate|]. eauto.
Qed.

End Admission.

(** ** The profile store of [antiBot.js], call by call *)

Section Calls.

Import AntiBot.
Import Measures.

Variable sha256_hex : string -> string.

Lemma prune_expired (now : Z) (ps : list Event) :
  Forall (expired now) ps -> prune now ps = [].
Proof.
  unfold prune, expired. induction ps as [|p ps IH]; intros H; [reflexivity|].
  apply Forall_cons in H as [Hp Hps]. cbn [List.filter].
  unfold inWindow at 1.
  assert (E : (now - timestamp p <? PATTERN_MEMORY) = false)
    by (apply Z.ltb_ge; exact Hp).
  rewrite E. now apply IH.
Qed.


(** X8: every call of [analyze] throws, and only after the new event was
    pushed and the events pruned.  When the fingerprint is known the stored
    profile is left half updated: its events are the pruned old ones followed
    by the new one, while [lastSeen], score and suspicion count are the old
    ones; when it is not known nothing is stored.  The exception is the
    missing [calculateBehaviorScore] when no old event is left in the window,
    and otherwise the [TypeError] of [hasLogicalFlow] or the missing
    [analyzeHeaderConsistency]. *)
Theorem analyze_throws_after_pruning (now : Z) (req : Request) (fp : string)
    (cache : gmap string ClientData) :
  exists msg,
    analyze now req fp cache
    = (match cache !! fp with
       | Some d0 =>
           <[fp := mkClientData (prune now (patterns d0) ++ [newEvent now req])
                     (lastSeen d0) (cd_score d0) (cd_suspicious d0)]> cache
       | None => cache
       end, Throw msg) /\
    (match cache !! fp with
     | Some d0 => prune now (patterns d0) = []
     | None => True
     end ->
     msg = notAFunction "calculateBehaviorScore") /\
    (forall d0, cache !! fp = Some d0 -> prune now (patterns d0) <> [] ->
       msg = undefinedIncludes \/
       msg = notAFunction "analyzeHeaderConsistency").
Proof.
  destruct (analyze_effect now req fp cache) as [msg Ha].
  exists msg. split.
  { rewrite Ha. destruct (cache !! fp) as [d0|]; [|reflexivity].
    rewrite prune_snoc by reflexivity. reflexivity. }
  unfold analyze in Ha.
  destruct (cache !! fp) as [d0|] eqn:E; cbn [patterns] in Ha.
  - rewrite prune_snoc in Ha by reflexivity. split.
    + intros Hnil. rewrite Hnil in Ha. cbn in Ha. congruence.
    + intros d1 [= <-] Hne.
      destruct (analysis_message (prune now (patterns d0) ++ [newEvent now req]))
        as [Hm|Hm].
      * rewrite length_app. cbn [length].
        destruct (prune now (patterns d0)); [congruence|cbn [length]; lia].
      * rewrite Hm in Ha. left. congruence.
      * rewrite Hm in Ha. right. congruence.
  - rewrite prune_snoc in Ha by reflexivity.
    split; [|discriminate]. intros _. cbn in Ha. congruence.
Qed.

End Calls.

(** ** Regular arrivals, repeated paths and header drift *)

Section Regularity.

Import Measures.

Local Open Scope Q_scope.

Lemma constant_list {A} (d : A) (l : list A) :
  Forall (fun i => i = d) l -> l = repeat d (length l).
Proof.
  induction l as [|x l IH]; intros H; [reflexivity|].
  apply Forall_cons in H as [-> H]. cbn [length repeat]. f_equal. now apply IH.
Qed.

Lemma length_intervalsOf (ps : list Event) :
  length (intervalsOf ps) = (length ps - 1)%nat.
Proof.
  induction ps as [|p ps IH]; [reflexivity|].
  destruct ps as [|q rest]; [reflexivity|].
  cbn [intervalsOf length] in *. rewrite IH. lia.
Qed.

Lemma inject_succ (n : nat) :
  inject_Z (Z.of_nat (S n)) == inject_Z (Z.of_nat n) + 1.
Proof. rewrite Nat2Z.inj_succ. unfold Z.succ. now rewrite inject_Z_plus. Qed.

Lemma inject_pos (n : nat) : ~ inject_Z (Z.of_nat (S n)) == 0.
Proof.
  intros H. assert (Hlt : 0 < inject_Z (Z.of_nat (S n))).
  { change 0 with (inject_Z 0). rewrite <- Zlt_Qlt. lia. }
  rewrite H in Hlt. now apply Qlt_irrefl in Hlt.
Qed.

Lemma sum_repeat (x : Q) (n : nat) (acc : Q) :
  fold_left Qplus (repeat x n) acc == acc + inject_Z (Z.of_nat n) * x.
Proof.
  revert acc. induction n as [|n IH]; intros acc; cbn [repeat fold_left].
  - change (inject_Z (Z.of_nat 0)) with 0. ring.
  - rewrite IH, inject_succ. ring.
Qed.

Lemma mean_repeat (x : Q) (n : nat) :
  Qsum (repeat x (S n)) / ofLen (repeat x (S n)) == x.
Proof.
  unfold Qsum, ofLen. rewrite sum_repeat, repeat_length.
  field. apply inject_pos.
Qed.

Lemma squares_repeat (mean x : Q) (n : nat) (acc : Q) :
  mean == x ->
  fold_left (fun a b => a + (b - mean) * (b - mean)) (repeat x n) acc == acc.
Proof.
  intros Hm. revert acc. induction n as [|n IH]; intros acc;
    cbn [repeat fold_left]; [reflexivity|].
  rewrite IH, Hm. ring.
Qed.

Lemma deviations_repeat (mean x : Q) (n : nat) (acc : Q) :
  mean == x ->
  fold_left (fun a b => a + Qabs (b - mean)) (repeat x n) acc == acc.
Proof.
  intros Hm. revert acc. induction n as [|n IH]; intros acc;
    cbn [repeat fold_left]; [reflexivity|].
  rewrite IH.
  assert (Hz : x - mean == 0) by (rewrite Hm; ring).
  rewrite Hz. change (Qabs 0) with 0. ring.
Qed.

Lemma existsb_repeat {A} (f : A -> bool) (x : A) (n : nat) :
  existsb f (repeat x (S n)) = f x.
Proof.
  induction n as [|n IH]; cbn [repeat existsb] in *.
  - apply orb_false_r.
  - rewrite IH. apply orb_diag.
Qed.

Lemma Qltb_inject (d : Z) : Qltb (ofZ d) 50 = (d <? 50)%Z.
Proof.
  unfold ofZ. destruct (d <? 50)%Z eqn:E.
  - apply Qltb_lt. apply Z.ltb_lt in E.
    change 50 with (inject_Z 50). now rewrite <- Zlt_Qlt.
  - apply Qltb_ge. apply Z.ltb_ge in E.
    change 50 with (inject_Z 50). now rewrite <- Zle_Qle.
Qed.

(** The intervals of a history of equally spaced requests. *)
Lemma regular_intervals (ps : list Event) (d : Z) :
  (2 <= length ps)%nat ->
  Forall (fun i => i = d) (intervalsOf ps) ->
  exists n, map ofZ (intervalsOf ps) = repeat (ofZ d) (S n).
Proof.
  intros Hlen Hreg. exists (length ps - 2)%nat.
  rewrite (constant_list d _ Hreg), length_intervalsOf, map_repeat.
  f_equal. lia.
Qed.

(** X9: for requests that arrive at one fixed interval the timing factor of
    [antiBot.js] is 0 when the interval is under 50 ms and 0.3 otherwise; the
    value 0.3 is not below the low-factor threshold, so regularity alone adds
    nothing to the suspicion count. *)
Theorem regular_arrivals_timing (ps : list Event) (d : Z) :
  (2 <= length ps)%nat ->
  Forall (fun i => i = d) (intervalsOf ps) ->
  AntiBot.analyzeTimingPatterns ps = (if (d <? 50)%Z then 0 else 3 # 10) /\
  ((50 <= d)%Z ->
   forall navigation headers,
     AntiBot.calculateSuspiciousScore (AntiBot.analyzeTimingPatterns ps)
       navigation headers
     = AntiBot.calculateSuspiciousScore 1 navigation headers).
Proof.
  intros Hlen Hreg.
  destruct (regular_intervals ps d Hlen Hreg) as [n Hn].
  assert (Ht : AntiBot.analyzeTimingPatterns ps
               = (if (d <? 50)%Z then 0 else 3 # 10)).
  { unfold AntiBot.analyzeTimingPatterns. rewrite Hn.
    rewrite repeat_length. cbn [Nat.eqb].
    assert (Hreg' : Qltb
                      (fold_left
                         (fun a b =>
                            a + (b - Qsum (repeat (ofZ d) (S n))
                                     / ofLen (repeat (ofZ d) (S n)))
                                * (b - Qsum (repeat (ofZ d) (S n))
                                       / ofLen (repeat (ofZ d) (S n))))
                         (repeat (ofZ d) (S n)) 0
                       / ofLen (repeat (ofZ d) (S n))) (100 * 100) = true).
    { apply Qltb_lt.
      rewrite (squares_repeat _ (ofZ d) (S n) 0 (mean_repeat (ofZ d) n)).
      unfold Qdiv. rewrite Qmult_0_l. reflexivity. }
    rewrite Hreg', existsb_repeat, Qltb_inject.
    destruct (d <? 50)%Z; reflexivity. }
  split; [exact Ht|].
  intros Hd navigation headers. rewrite Ht.
  assert (E : (d <? 50)%Z = false) by (apply Z.ltb_ge; exact Hd).
  rewrite E. reflexivity.
Qed.

(** The timing factor of [antiBot.js] takes four values, and it is
    below the low-factor threshold 0.3 only when it is 0, that is, when the
    arrivals are both regular and too fast. *)
Lemma timing_low_only_at_zero (ps : list Event) :
  Qltb (AntiBot.analyzeTimingPatterns ps) (3 # 10) = true <->
  AntiBot.analyzeTimingPatterns ps = 0.
Proof.
  destruct (timing_values ps) as [H|[H|[H|H]]]; rewrite H;
    split; try reflexivity; try discriminate.
Qed.

Lemma legacy_regular_timing (ps : list Event) (d : Z) :
  (2 <= length ps)%nat ->
  Forall (fun i => i = d) (intervalsOf ps) ->
  Part001.analyzeTimingPatterns ps == 0.
Proof.
  intros Hlen Hreg.
  destruct (regular_intervals ps d Hlen Hreg) as [n Hn].
  unfold Part001.analyzeTimingPatterns. rewrite Hn.
  rewrite (deviations_repeat _ (ofZ d) (S n) 0 (mean_repeat (ofZ d) n)).
  unfold Qdiv. rewrite !Qmult_0_l. apply Q.min_l. lra.
Qed.

Lemma legacy_regular_analysis (ps : list Event) (d : Z) :
  (2 <= length ps)%nat ->
  Forall (fun i => i = d) (intervalsOf ps) ->
  Part001.analyzeTimingPatterns ps == 0 /\
  Part001.confidence (Part001.analyzeBehaviorPatterns ps) <= 2 # 3 /\
  Part001.humanLike (Part001.analyzeBehaviorPatterns ps) = false.
Proof.
  intros Hlen Hreg.
  pose proof (legacy_regular_timing ps d Hlen Hreg) as Ht.
  assert (Hc : Part001.confidence (Part001.analyzeBehaviorPatterns ps) <= 2 # 3).
  { unfold Part001.analyzeBehaviorPatterns.
    assert (E : Nat.ltb (length ps) 2 = false) by (apply Nat.ltb_ge; lia).
    rewrite E. cbn [Part001.confidence].
    pose proof (legacy_navigation_range ps).
    pose proof (headerConsistency_range ps).
    rewrite Ht. unfold Qdiv. change (/ 3) with (1 # 3). lra. }
  split; [exact Ht|]. split; [exact Hc|].
  unfold Part001.analyzeBehaviorPatterns in *.
  assert (E : Nat.ltb (length ps) 2 = false) by (apply Nat.ltb_ge; lia).
  rewrite E in *. cbn [Part001.humanLike Part001.confidence] in *.
  apply Qgeb_lt. lra.
Qed.

(** X10: in the earlier revision, requests that arrive at one fixed interval
    have timing factor 0, hence a confidence of at most 2/3, below the
    human-like bar 0.7: such a history is never judged human-like. *)
Theorem legacy_regular_arrivals_not_human (ps : list Event) (d : Z) :
  (2 <= length ps)%nat ->
  Forall (fun i => i = d) (intervalsOf ps) ->
  Part001.analyzeTimingPatterns ps == 0 /\
  Part001.confidence (Part001.analyzeBehaviorPatterns ps) <= 2 # 3 /\
  Part001.humanLike (Part001.analyzeBehaviorPatterns ps) = false.
Proof. exact (legacy_regular_analysis ps d). Qed.

Section SecondRequest.

Variable sha256_hex : string -> string.

(** X11: in the earlier revision the second request of a client inside the
    window is always flagged: when exactly one stored event of the profile
    is still in the window, the two events give one interval, the timing
    factor is 0, and [detectBot] answers [suspicious_behavior] for any
    request with a valid environment; the request is not marked legitimate. *)
Theorem legacy_second_request_flagged (now : Z) (req : Request)
    (st : Part001.State) (d : Part001.ClientData) (e : Event) :
  oid req ∉ Part001.legitimateClients st ->
  Part001.valid (Part001.validateBrowserEnvironment req) = true ->
  Part001.behaviorCache st !! Part001.generateFingerprint sha256_hex req = Some d ->
  prune now (Part001.patterns d) = [e] ->
  exists st' v,
    Part001.detectBot sha256_hex now req st = (st', v) /\
    Part001.isBot v = true /\
    Part001.reason v = Some suspicious_behavior /\
    Part001.v_confidence v <= 2 # 3 /\
    Part001.legitimateClients st' = Part001.legitimateClients st.
Proof.
  intros Hlegit Hvalid Hd Hone. unfold Part001.detectBot.
  rewrite bool_decide_eq_false_2 by assumption.
  rewrite Hvalid. cbn [negb]. unfold Part001.analyze. rewrite Hd.
  rewrite prune_snoc by reflexivity. rewrite Hone.
  set (ps := ([e] ++ [Part001.newEvent now req])%list).
  assert (Hlen : (2 <= length ps)%nat) by (cbn; lia).
  assert (Hreg : Forall (fun i => i = (now - timestamp e)%Z) (intervalsOf ps))
    by (cbn; repeat constructor).
  destruct (legacy_regular_analysis ps _ Hlen Hreg) as [_ [Hc Hh]].
  rewrite Hh. cbn [negb].
  eexists. eexists. split; [reflexivity|].
  cbn [Part001.isBot Part001.reason Part001.v_confidence
       Part001.legitimateClients].
  repeat split. exact Hc.
Qed.

End SecondRequest.

End Regularity.

Section Repetition.

Import AntiBot.
Import Measures.

Local Open Scope Q_scope.

Lemma repetitionsOf_repeat (p : string) (n : nat) :
  repetitionsOf (repeat p (S (S n))) = Z.of_nat n.
Proof.
  cbn [repeat]. induction n as [|n IH]; [reflexivity|].
  cbn [repeat].
  change (repetitionsOf (p :: p :: p :: repeat p n))
    with ((if (String.eqb p p && String.eqb p p)%bool then 1 else 0)
          + repetitionsOf (p :: p :: repeat p n))%Z.
  rewrite String.eqb_refl, IH. cbn [andb]. lia.
Qed.

Lemma calculateRepetition_repeat (p : string) (n : nat) :
  calculateRepetition (repeat p (S (S (S n)))) == 1.
Proof.
  unfold calculateRepetition. rewrite repeat_length. cbn [Nat.ltb Nat.leb].
  rewrite repetitionsOf_repeat.
  assert (E : ofZ (Z.of_nat (S (S (S n))) - 2) = ofZ (Z.of_nat (S n)))
    by (f_equal; lia).
  rewrite E. unfold ofZ.
  assert (H1 : inject_Z (Z.of_nat (S n)) / inject_Z (Z.of_nat (S n)) == 1)
    by (field; apply inject_pos).
  rewrite H1. apply Q.min_l. lra.
Qed.

Lemma hasLogicalFlow_repeat (p : string) (n : nat) :
  includes "/" p = false -> exists r, hasLogicalFlow (repeat p n) = Ok r.
Proof.
  intros Hp. apply hasLogicalFlow_returns.
  apply Forall_forall. intros x Hx.
  assert (Hin : x ∈ repeat p n).
  { destruct n as [|n]; [inversion Hx|].
    apply list_elem_of_In. apply list_elem_of_In in Hx.
    revert Hx. generalize (repeat p (S n)). intros l.
    induction l as [|a [|b l] IH]; cbn [removelast]; intros Hx;
      [inversion Hx|inversion Hx|].
    destruct Hx as [<-|Hx]; [now left|right; now apply IH]. }
  apply list_elem_of_In, repeat_spec in Hin. now subst.
Qed.

(** X12: a history of three or more requests for one and the same path has
    repetition 1, so its navigation factor is 0, whatever the path, as long
    as [hasLogicalFlow] does not throw on it (the path is neither empty nor
    the root). *)
Theorem repeated_path_navigation_zero (ps : list Event) (p : string) :
  (3 <= length ps)%nat ->
  Forall (fun e => ev_path e = p) ps ->
  includes "/" p = false ->
  calculateRepetition (map ev_path ps) == 1 /\
  exists navigation,
    analyzeNavigationPatterns ps = Ok navigation /\ navigation == 0.
Proof.
  intros Hlen Hall Hp.
  assert (Hpaths : map ev_path ps = repeat p (length ps)).
  { rewrite (constant_list p (map ev_path ps)); [now rewrite length_map|].
    apply Forall_forall. intros x Hx.
    apply list_elem_of_In, in_map_iff in Hx as [e [<- He]].
    rewrite Forall_forall in Hall. apply Hall. now apply list_elem_of_In. }
  destruct (length ps) as [|[|[|n]]] eqn:E; try lia.
  pose proof (calculateRepetition_repeat p n) as Hrep.
  split; [now rewrite Hpaths|].
  unfold analyzeNavigationPatterns. rewrite Hpaths.
  destruct (hasLogicalFlow_repeat p (S (S (S n))) Hp) as [r Hr].
  rewrite Hr. cbn [bind]. eexists. split; [reflexivity|].
  destruct (negb r); rewrite Hrep; ring.
Qed.

Lemma decayed_add (c : Q) (j m : nat) :
  decayed (decayed c j) m = decayed c (j + m).
Proof.
  induction m as [|m IH]; [now rewrite Nat.add_0_r|].
  rewrite Nat.add_succ_r. cbn [decayed]. now rewrite IH.
Qed.

Lemma headerDecay_cons (prev curr : RelevantHeaders)
    (rest : list RelevantHeaders) (c : Q) :
  Part001.headerDecay c (prev :: curr :: rest)
  = Part001.headerDecay
      (decayed c
         ((if strictNe (language prev) (language curr) then 1 else 0)
          + (if strictNe (encoding prev) (encoding curr) then 1 else 0)))
      (curr :: rest).
Proof.
  destruct (strictNe (language prev) (language curr)) eqn:E1,
           (strictNe (encoding prev) (encoding curr)) eqn:E2;
    cbn [Part001.headerDecay]; rewrite E1, E2; reflexivity.
Qed.

Lemma changes_cons (prev curr : RelevantHeaders) (rest : list RelevantHeaders) :
  changes (prev :: curr :: rest)
  = ((if strictNe (language prev) (language curr) then 1 else 0)
     + (if strictNe (encoding prev) (encoding curr) then 1 else 0)
     + changes (curr :: rest))%nat.
Proof. reflexivity. Qed.

Lemma headerDecay_decayed (hs : list RelevantHeaders) (c : Q) :
  Part001.headerDecay c hs = decayed c (changes hs).
Proof.
  revert c. induction hs as [|prev hs IH]; intros c; [reflexivity|].
  destruct hs as [|curr rest]; [reflexivity|].
  rewrite headerDecay_cons, changes_cons, IH. apply decayed_add.
Qed.

Lemma decayed_step (k : nat) :
  0 <= decayed 1 (S k) <= decayed 1 k.
Proof.
  induction k as [|k [IH1 IH2]]; cbn [decayed] in *; lra.
Qed.

Lemma decayed_antitone (k m : nat) : decayed 1 (k + m) <= decayed 1 k.
Proof.
  induction m as [|m IH]; [rewrite Nat.add_0_r; lra|].
  rewrite Nat.add_succ_r. pose proof (decayed_step (k + m)). lra.
Qed.

(** X13: the header-consistency factor is 1 multiplied by 0.8 once for
    every change of language and every change of encoding between
    consecutive requests; it stays 1 when neither ever changes, and it drops
    below the low-factor threshold 0.3 exactly from the sixth change on. *)
Theorem header_consistency_counts_changes (ps : list Event) :
  Part001.analyzeHeaderConsistency ps = decayed 1 (changes (map ev_headers ps)) /\
  (changes (map ev_headers ps) = 0%nat -> Part001.analyzeHeaderConsistency ps = 1) /\
  (Qltb (Part001.analyzeHeaderConsistency ps) (3 # 10) = true <->
   (6 <= changes (map ev_headers ps))%nat).
Proof.
  assert (Hf : Part001.analyzeHeaderConsistency ps
               = decayed 1 (changes (map ev_headers ps))).
  { unfold Part001.analyzeHeaderConsistency.
    apply headerDecay_decayed. }
  split; [exact Hf|]. split; [intros H0; now rewrite Hf, H0|].
  rewrite Hf, Qltb_lt. generalize (changes (map ev_headers ps)). intros k.
  split.
  - intros Hlt. destruct (Nat.le_gt_cases 6 k) as [Hk|Hk]; [exact Hk|].
    exfalso.
    assert (Hge : decayed 1 5 <= decayed 1 k).
    { replace 5%nat with (k + (5 - k))%nat by lia. apply decayed_antitone. }
    assert (H5 : 3 # 10 < decayed 1 5) by reflexivity.
    lra.
  - intros Hk.
    assert (Hle : decayed 1 k <= decayed 1 6).
    { replace k with (6 + (k - 6))%nat by lia. apply decayed_antitone. }
    assert (H6 : decayed 1 6 < 3 # 10) by reflexivity.
    lra.
Qed.

End Repetition.

(** ** The sweeper and the store of the earlier revision *)

Section SweeperLaws.

Import Part001.
Import Measures.

(** X14: the sweeper loop, which deletes entries of the map it is iterating
    over, computes the filter that keeps the profiles last seen at most one
    retention window before [now]. *)
Theorem sweep_filters_by_last_seen (now : Z) (cache : gmap string ClientData) :
  sweep now cache
  = filter (fun entry => now - lastSeen (snd entry) <= PATTERN_MEMORY) cache.
Proof.
  apply map_eq. intros k. rewrite sweep_lookup.
  destruct (cache !! k) as [d|] eqn:Hk.
  - destruct (PATTERN_MEMORY <? now - lastSeen d) eqn:E.
    + apply Z.ltb_lt in E. symmetry. apply map_lookup_filter_None_2.
      right. intros x Hx. rewrite Hk in Hx. inversion Hx; subst. simpl. lia.
    + apply Z.ltb_ge in E. symmetry. apply map_lookup_filter_Some_2; auto.
  - symmetry. apply map_lookup_filter_None_2. now left.
Qed.

(** X15: sweeping only removes profiles, and a later sweep absorbs an
    earlier one: running the sweeper at [earlier] and then at [now] leaves
    the store that a single run at [now] leaves (so a second run at the same
    time changes nothing). *)
Theorem sweep_absorbs_earlier_sweep (earlier now : Z)
    (cache : gmap string ClientData) :
  earlier <= now ->
  sweep now (sweep earlier cache) = sweep now cache /\
  sweep now cache ⊆ cache.
Proof.
  intros Hle. split.
  - apply map_eq. intros k. rewrite !sweep_lookup.
    destruct (cache !! k) as [d|]; [|reflexivity].
    destruct (PATTERN_MEMORY <? earlier - lastSeen d) eqn:E1.
    + apply Z.ltb_lt in E1.
      assert (E2 : (PATTERN_MEMORY <? now - lastSeen d) = true)
        by (apply Z.ltb_lt; lia).
      now rewrite E2.
    + reflexivity.
  - apply map_subseteq_spec. intros k d Hd.
    now apply sweep_survivor in Hd as [Hd _].
Qed.

Lemma legacy_analyze_unfold (now : Z) (req : Request) (fp : string)
    (cache : gmap string ClientData) :
  analyze now req fp cache
  = let kept :=
      prune now
        (match cache !! fp with Some d0 => patterns d0 | None => [] end
         ++ [newEvent now req]) in
    (<[fp := mkClientData kept now
               (calculateBehaviorScore (confidence (analyzeBehaviorPatterns kept)))]>
       cache,
     analyzeBehaviorPatterns kept).
Proof. unfold analyze. destruct (cache !! fp); reflexivity. Qed.

(** X16: in a store reached by calls with nondecreasing clocks the sweeper
    is invisible to the analysis: a call of [analyze] at [now] returns the
    same analysis and stores the same profile whether or not the sweeper ran
    before it, because every event of an evicted profile would have been
    pruned by the call anyway. *)
Theorem sweep_invisible_to_analysis (clock swept now : Z) (req : Request)
    (fp : string) (cache : gmap string ClientData) :
  reachable clock cache ->
  swept <= now ->
  snd (analyze now req fp (sweep swept cache)) = snd (analyze now req fp cache) /\
  fst (analyze now req fp (sweep swept cache)) !! fp
  = fst (analyze now req fp cache) !! fp.
Proof.
  intros Hr Hle.
  assert (Hkept :
    prune now (match sweep swept cache !! fp with
               | Some d0 => patterns d0 | None => [] end ++ [newEvent now req])
    = prune now (match cache !! fp with
                 | Some d0 => patterns d0 | None => [] end ++ [newEvent now req])).
  { rewrite sweep_lookup. destruct (cache !! fp) as [d|] eqn:Hd; [|reflexivity].
    destruct (PATTERN_MEMORY <? swept - lastSeen d) eqn:E; [|reflexivity].
    apply Z.ltb_lt in E.
    destruct (legacy_reachable_inv _ _ Hr fp d Hd) as [_ [_ [Htimely _]]].
    rewrite !prune_snoc by reflexivity. f_equal.
    rewrite (prune_expired now (patterns d)); [reflexivity|].
    unfold timely in Htimely. eapply Forall_impl; [exact Htimely|].
    intros e He. unfold expired. simpl in He. lia. }
  rewrite !legacy_analyze_unfold. cbn zeta. cbn [fst snd].
  rewrite !lookup_insert_eq, Hkept. split; reflexivity.
Qed.

(** X17: in every store reached by calls with nondecreasing clocks, each
    profile holds at least one event, its [lastSeen] is the time stamp of its
    newest event, its events all lie less than one window before that, and
    its score is between 0 and 100. *)
Theorem legacy_profile_invariant (clock : Z) (cache : gmap string ClientData) :
  reachable clock cache ->
  forall fp d, cache !! fp = Some d ->
    (exists e, last (patterns d) = Some e /\ timestamp e = lastSeen d) /\
    lastSeen d <= clock /\
    fresh (lastSeen d) (patterns d) /\
    (0 <= cd_score d <= 100)%Q.
Proof.
  intros Hr fp d Hd.
  destruct (legacy_reachable_inv _ _ Hr fp d Hd) as [Hseen [_ [_ Hfresh]]].
  split; [|split; [exact Hseen|split; [exact Hfresh|]]].
  - clear Hseen Hfresh. revert fp d Hd.
    induction Hr as [clock|clock cache now req fp0 Hr IH Hle|clock cache now Hr IH Hle];
      intros fp d Hd.
    + rewrite lookup_empty in Hd. discriminate.
    + rewrite legacy_analyze_unfold in Hd. cbn zeta in Hd. cbn [fst] in Hd.
      destruct (decide (fp0 = fp)) as [->|Hne].
      * rewrite lookup_insert_eq in Hd. inversion Hd; subst d; clear Hd.
        cbn [patterns lastSeen]. rewrite prune_snoc by reflexivity.
        exists (newEvent now req). split; [apply last_snoc|reflexivity].
      * rewrite lookup_insert_ne in Hd by assumption. eauto.
    + apply sweep_survivor in Hd as [Hd _]. eauto.
  - clear Hseen Hfresh. revert fp d Hd.
    induction Hr as [clock|clock cache now req fp0 Hr IH Hle|clock cache now Hr IH Hle];
      intros fp d Hd.
    + rewrite lookup_empty in Hd. discriminate.
    + rewrite legacy_analyze_unfold in Hd. cbn zeta in Hd. cbn [fst] in Hd.
      destruct (decide (fp0 = fp)) as [->|Hne].
      * rewrite lookup_insert_eq in Hd. inversion Hd; subst d; clear Hd.
        cbn [cd_score]. unfold calculateBehaviorScore.
        match goal with
        | |- (0 <= confidence (analyzeBehaviorPatterns ?ps) * 100 <= 100)%Q =>
            pose proof (legacy_confidence_range ps)
        end.
        lra.
      * rewrite lookup_insert_ne in Hd by assumption. eauto.
    + apply sweep_survivor in Hd as [Hd _]. eauto.
Qed.

End SweeperLaws.

(** ** The store of [antiBot.js] *)

Section StoreLaws.

Import AntiBot.

(** X18: [antiBot.js] never stores a profile: [behaviorCache.set] comes
    after the call that throws, so every store reached from the empty map by
    calls of [analyze] is the empty map, and [detectBot] leaves an empty
    cache empty. *)
Theorem store_stays_empty (clock : Z) (cache : gmap string ClientData) :
  reachable clock cache ->
  cache = ∅ /\
  forall hash now req legit,
    behaviorCache (fst (detectBot hash now req (mkState cache legit))) = ∅.
Proof.
  intros Hr. apply reachable_empty in Hr. subst cache.
  split; [reflexivity|]. intros hash now req legit. unfold detectBot.
  destruct (bool_decide _); [reflexivity|].
  destruct (_ <? 20); [reflexivity|].
  cbn [behaviorCache].
  destruct (analyze_effect now req (generateFingerprint hash req) ∅) as [msg ->].
  rewrite lookup_empty. reflexivity.
Qed.

End StoreLaws.

(** ** Header formats and navigation of the earlier revision *)

Section LegacyEnvironment.

Import Part001.
Import Measures.
Import Regex.

Lemma lang_lit (s w : string) : lang (lit s) w <-> w = s.
Proof.
  revert w. induction s as [|c s IH]; intros w; cbn [lit].
  - split; [now inversion 1|intros ->; constructor].
  - split.
    + inversion 1 as [| |? ? u t Hu Ht| | | |]; subst.
      inversion Hu as [|p c' Hc| | | | |]; subst.
      apply Ascii.eqb_eq in Hc. subst c'.
      apply IH in Ht. subst t. reflexivity.
    + intros ->.
      change (String c s) with (String c EmptyString ++ s)%string.
      apply lang_seq; [constructor; apply Ascii.eqb_refl|now apply IH].
Qed.

Lemma lang_alts_lit (l : list string) (w : string) :
  lang (alts (map lit l)) w <-> w ∈ l.
Proof.
  induction l as [|s l IH]; cbn [map alts].
  - split; [inversion 1|inversion 1].
  - destruct l as [|s' l].
    + cbn [map alts]. rewrite lang_lit, list_elem_of_singleton. reflexivity.
    + rewrite elem_of_cons. split.
      * inversion 1 as [| | |? ? ? Ha|? ? ? Hb| |]; subst.
        -- left. now apply lang_lit.
        -- right. now apply IH.
      * intros [->|Hw].
        -- apply lang_alt_l. now apply lang_lit.
        -- apply lang_alt_r. now apply IH.
Qed.

Lemma test_whole (body : re) (v : string) :
  test (whole body) v = true <-> lang body v.
Proof.
  rewrite test_spec. cbn [ignoreCase whole anchorStart anchorEnd Regex.body].
  split.
  - intros [before [mid [after [E [Hmid [Hb Ha]]]]]].
    rewrite (Hb eq_refl), (Ha eq_refl) in E.
    rewrite append_empty_l, append_empty_r in E. now subst.
  - intros H. exists EmptyString, v, EmptyString.
    rewrite append_empty_l, append_empty_r. auto.
Qed.

Lemma test_whole_tokens (l : list string) (v : string) :
  test (whole (alts (map lit l))) v = true <-> v ∈ l.
Proof. rewrite test_whole. apply lang_alts_lit. Qed.

(** X19: the format check is exact and case-sensitive for the fetch
    metadata and the mobile hint: a value earns the format bonus only when
    it is, as a whole, one of the listed tokens; headers without a pattern
    (such as [accept]) always pass. *)
Theorem header_format_tokens (v : string) :
  (validateHeaderFormat "sec-fetch-site" v = true <->
   v ∈ ["none"; "same-origin"; "same-site"; "cross-site"]) /\
  (validateHeaderFormat "sec-fetch-mode" v = true <->
   v ∈ ["navigate"; "same-origin"; "no-cors"; "cors"]) /\
  (validateHeaderFormat "sec-fetch-dest" v = true <->
   v ∈ ["document"; "script"; "style"; "image"; "font"]) /\
  (validateHeaderFormat "sec-ch-ua-mobile" v = true <-> v ∈ ["?0"; "?1"]) /\
  validateHeaderFormat "accept" v = true /\
  validateHeaderFormat "accept-encoding" v = true /\
  validateHeaderFormat "accept-language" v = true.
Proof.
  split; [|split; [|split; [|split]]].
  - exact (test_whole_tokens ["none"; "same-origin"; "same-site"; "cross-site"] v).
  - exact (test_whole_tokens ["navigate"; "same-origin"; "no-cors"; "cors"] v).
  - exact (test_whole_tokens ["document"; "script"; "style"; "image"; "font"] v).
  - change (validateHeaderFormat "sec-ch-ua-mobile" v)
      with (test (whole (Seq (chr "?")
                           (Cls (fun c => Ascii.eqb c "0" || Ascii.eqb c "1")))) v).
    rewrite test_whole. split.
    + inversion 1 as [| |? ? u t Hu Ht| | | |]; subst.
      inversion Hu as [|p c Hc| | | | |]; subst.
      inversion Ht as [|p c' Hc'| | | | |]; subst.
      apply Ascii.eqb_eq in Hc. subst c.
      apply orb_true_iff in Hc' as [Hc'|Hc']; apply Ascii.eqb_eq in Hc'; subst c'.
      * apply list_elem_of_here.
      * apply list_elem_of_further, list_elem_of_here.
    + intros Hv. apply elem_of_cons in Hv as [->|Hv];
        [|apply list_elem_of_singleton in Hv; subst v].
      * change "?0" with (String "?" EmptyString ++ String "0" EmptyString)%string.
        apply lang_seq; now constructor.
      * change "?1" with (String "?" EmptyString ++ String "1" EmptyString)%string.
        apply lang_seq; now constructor.
  - repeat split.
Qed.

Lemma legacy_header_loop_count (h : gmap string string) (l : list string)
    (start : Z) :
  start + 10 * presentAmong h l
  <= fold_left (headerPoints h) l start
  <= start + 15 * presentAmong h l.
Proof.
  unfold presentAmong. revert start.
  induction l as [|x l IH]; intros start; cbn [fold_left List.filter length];
    [lia|].
  specialize (IH (headerPoints h start x)).
  unfold headerPoints in *.
  destruct (truthy (h !! x)); cbn [length].
  - destruct (validateHeaderFormat x (orEmpty (h !! x))); lia.
  - lia.
Qed.

(** X20: with [k] of the nine required headers present and non-empty, the
    score of the earlier revision is between [10 k] and [15 k + 50].  So a
    request with fewer than two of them is never valid, and one with seven of
    them is valid whatever their values and whatever the user-agent. *)
Theorem legacy_score_by_present_headers (req : Request) :
  let k := presentAmong (headers req) requiredHeaders in
  10 * k <= score (validateBrowserEnvironment req) <= 15 * k + 50 /\
  (valid (validateBrowserEnvironment req) = true -> 2 <= k) /\
  (7 <= k -> valid (validateBrowserEnvironment req) = true).
Proof.
  intros k.
  assert (Hs : 10 * k <= score (validateBrowserEnvironment req) <= 15 * k + 50).
  { unfold validateBrowserEnvironment. cbn [score].
    pose proof (legacy_header_loop_count (headers req) requiredHeaders 0) as H1.
    fold k in H1.
    pose proof (legacy_analyzeUserAgent_range
                  (orEmpty (headers req !! "user-agent"))) as H2.
    destruct (truthy (headers req !! "user-agent")); lia. }
  split; [exact Hs|].
  unfold validateBrowserEnvironment in *. cbn [score valid] in *.
  split; intros H.
  - apply Z.leb_le in H. lia.
  - apply Z.leb_le. lia.
Qed.

Local Open Scope Q_scope.

Lemma matchCount_counts (paths : list string) (start : Z) :
  fold_left (fun n p =>
               if existsb (fun pat => test pat p) validSequences
               then (n + 1)%Z else n) paths start
  = (start + Z.of_nat (length (List.filter recognised paths)))%Z.
Proof.
  revert start. induction paths as [|p paths IH]; intros start;
    cbn [fold_left List.filter length]; [lia|].
  rewrite IH. unfold recognised at 2.
  destruct (existsb _ validSequences); cbn [length]; lia.
Qed.

(** X21: on a non-empty path list the navigation check of the earlier
    revision holds exactly when at least seven in ten of the paths are
    recognised ([/], [/check-ip], or a path starting with [/loading] or
    [/review]); each path counts once. *)
Theorem normal_flow_seven_in_ten (paths : list string) :
  paths <> [] ->
  (hasNormalNavigationFlow paths = true <->
   (7 * Z.of_nat (length paths)
    <= 10 * Z.of_nat (length (List.filter recognised paths)))%Z).
Proof.
  intros Hne. unfold hasNormalNavigationFlow.
  rewrite matchCount_counts, Z.add_0_l, Qgeb_ge.
  set (c := Z.of_nat (length (List.filter recognised paths))).
  unfold ofZ, ofLen. set (n := Z.of_nat (length paths)).
  assert (Hn : (0 < n)%Z) by (destruct paths; [congruence|cbn in n; lia]).
  assert (Hqn : 0 < inject_Z n)
    by (change 0 with (inject_Z 0); now rewrite <- Zlt_Qlt).
  assert (Hz : (7 * n <= 10 * c)%Z <-> 7 * inject_Z n <= 10 * inject_Z c).
  { rewrite Zle_Qle, !inject_Z_mult. reflexivity. }
  rewrite Hz. split.
  - intros H. apply (Qmult_le_compat_r _ _ (inject_Z n)) in H; [|lra].
    assert (E : inject_Z c / inject_Z n * inject_Z n == inject_Z c)
      by (field; lra).
    rewrite E in H. lra.
  - intros H. apply Qle_shift_div_l; [exact Hqn|]. lra.
Qed.

End LegacyEnvironment.

Section LegacyAdmission.

Import Part001.

Variable sha256_hex : string -> string.

(** X22: in the earlier revision, off the fast path, a request is admitted
    exactly when its environment is valid (score at least 70) and the
    analysis of its profile is human-like.  Only an admission marks the
    request object legitimate, after which the same object is answered with
    confidence 1 and no further check; every verdict carries a confidence in
    [0,1]. *)
Theorem legacy_admission_rule (now : Z) (req : Request) (st st' : State)
    (v : Verdict) :
  oid req ∉ legitimateClients st ->
  detectBot sha256_hex now req st = (st', v) ->
  (isBot v = false <->
   valid (validateBrowserEnvironment req) = true /\
   humanLike (snd (analyze now req (generateFingerprint sha256_hex req)
                     (behaviorCache st))) = true) /\
  (isBot v = false ->
   legitimateClients st' = {[ oid req ]} ∪ legitimateClients st /\
   v_fingerprint v = Some (generateFingerprint sha256_hex req) /\
   forall later,
     detectBot sha256_hex later req st'
     = (st', mkVerdict false 1 None None None None)) /\
  (isBot v = true ->
   legitimateClients st' = legitimateClients st /\ v_fingerprint v = None) /\
  (0 <= v_confidence v <= 1)%Q.
Proof.
  intros Hlegit. unfold detectBot at 1.
  rewrite bool_decide_eq_false_2 by assumption.
  destruct (valid (validateBrowserEnvironment req)) eqn:Ev; cbn [negb].
  - destruct (analyze now req _ (behaviorCache st)) as [cache' b] eqn:Ea.
    assert (Hb : (0 <= confidence b <= 1)%Q).
    { unfold analyze in Ea. inversion Ea; subst.
      apply legacy_confidence_range. }
    cbn [snd].
    destruct (humanLike b) eqn:Eh; cbn [negb]; intros [= <- <-];
      cbn [isBot legitimateClients v_fingerprint v_confidence].
    + split; [tauto|]. split; [|split; [discriminate|exact Hb]].
      intros _. split; [reflexivity|]. split; [reflexivity|].
      intros later. unfold detectBot.
      rewrite bool_decide_eq_true_2
        by (cbn [legitimateClients]; apply elem_of_union_l, elem_of_singleton;
            reflexivity).
      reflexivity.
    + split; [split; [discriminate|intros [_ H]; discriminate]|].
      split; [discriminate|]. split; [auto|exact Hb].
  - intros [= <- <-].
    cbn [isBot legitimateClients v_fingerprint v_confidence].
    split; [split; [discriminate|intros [H _]; discriminate]|].
    split; [discriminate|]. split; [auto|lra].
Qed.

End LegacyAdmission.

(** ** Navigation of [antiBot.js] *)

Section Navigation.

Import AntiBot.

Local Open Scope Q_scope.





Lemma repetitionsOf_bound (paths : list string) :
  (AntiBot.repetitionsOf paths <= Z.of_nat (length paths - 2))%Z.
Proof.
  induction paths as [|a paths IH]; [cbn; lia|].
  destruct paths as [|b [|c rest]]; [cbn; lia|cbn; lia|].
  change (repetitionsOf (a :: b :: c :: rest))
    with ((if (String.eqb c b && String.eqb b a)%bool then 1 else 0)
          + repetitionsOf (b :: c :: rest))%Z.
  cbn [length] in *. destruct (_ && _)%bool; lia.
Qed.

(** X24: for three or more paths the repetition is exactly the number of
    positions whose path equals the two before it, divided by the number of
    such positions; that quotient never exceeds 1, so the clamp of
    [Math.min] never takes effect. *)
Theorem repetition_is_a_fraction (paths : list string) :
  (3 <= length paths)%nat ->
  (0 <= repetitionsOf paths <= Z.of_nat (length paths) - 2)%Z /\
  calculateRepetition paths
  == ofZ (repetitionsOf paths) / ofZ (Z.of_nat (length paths) - 2).
Proof.
  intros Hlen.
  pose proof (repetitionsOf_nonneg paths) as H0.
  pose proof (repetitionsOf_bound paths) as H1.
  split; [lia|].
  unfold calculateRepetition.
  assert (E : Nat.ltb (length paths) 3 = false) by (apply Nat.ltb_ge; lia).
  rewrite E. apply Q.min_l. unfold ofZ.
  apply Qle_shift_div_r.
  - change 0 with (inject_Z 0). rewrite <- Zlt_Qlt. lia.
  - rewrite Qmult_1_l. rewrite <- Zle_Qle. lia.
Qed.

End Navigation.


(** ** The further properties on concrete runs *)

Lemma missing_user_agent_is_rejected_witness :
  truthy (headers Samples.bareRequest !! "user-agent") = false /\
  (oid Samples.bareRequest ∉ AntiBot.legitimateClients Samples.emptyState) /\
  -80 <= AntiBot.score (AntiBot.validateBrowserEnvironment Samples.bareRequest) <= 5.
Proof.
  assert (H1 : truthy (headers Samples.bareRequest !! "user-agent") = false)
    by reflexivity.
  assert (H2 : oid Samples.bareRequest ∉ AntiBot.legitimateClients Samples.emptyState)
    by (simpl; apply not_elem_of_empty).
  split; [exact H1|]. split; [exact H2|].
  exact (proj1 (missing_user_agent_is_rejected Samples.digest 0
                  Samples.bareRequest Samples.emptyState H1 H2)).
Defined.

Lemma automation_indicator_costs_fifty_witness :
  headers Samples.automationRequest !! "user-agent" = Some Samples.automationUA /\
  "bot" ∈ AntiBot.botIndicators /\
  includes (toLowerCase Samples.automationUA) "bot" = true /\
  AntiBot.validateSpecialHeaders (headers Samples.automationRequest) <= -50.
Proof.
  assert (H1 : headers Samples.automationRequest !! "user-agent"
               = Some Samples.automationUA) by reflexivity.
  assert (H2 : "bot" ∈ AntiBot.botIndicators)
    by (apply list_elem_of_In; vm_compute; tauto).
  assert (H3 : includes (toLowerCase Samples.automationUA) "bot" = true)
    by (vm_compute; reflexivity).
  split; [exact H1|]. split; [exact H2|]. split; [exact H3|].
  exact (proj1 (automation_indicator_costs_fifty Samples.automationRequest
                  Samples.automationUA "bot" H1 H2 H3)).
Defined.

Lemma verdict_only_before_analysis_witness :
  AntiBot.detectBot Samples.digest 0 Samples.bareRequest Samples.emptyState
  = (Samples.emptyState,
     Ok (Samples.verdictOf
           (AntiBot.detectBot Samples.digest 0 Samples.bareRequest
              Samples.emptyState))) /\
  AntiBot.score (AntiBot.validateBrowserEnvironment Samples.bareRequest) < 20 /\
  AntiBot.reason
    (Samples.verdictOf
       (AntiBot.detectBot Samples.digest 0 Samples.bareRequest Samples.emptyState))
  = Some invalid_browser_environment.
Proof.
  assert (H : AntiBot.detectBot Samples.digest 0 Samples.bareRequest
                Samples.emptyState
              = (Samples.emptyState,
                 Ok (Samples.verdictOf
                       (AntiBot.detectBot Samples.digest 0 Samples.bareRequest
                          Samples.emptyState))))
    by (vm_compute; reflexivity).
  split; [exact H|].
  destruct (proj1 (proj2 (verdict_only_before_analysis Samples.digest 0 _ _ _ _ H))
              _ eq_refl) as [_ [[Hin _]|[_ [Hs [_ Hr]]]]].
  - exfalso. revert Hin. simpl. apply not_elem_of_empty.
  - split; [exact Hs|exact Hr].
Defined.


Lemma regular_arrivals_timing_witness :
  (2 <= length Cases.burst)%nat /\
  Forall (fun i => i = 10) (intervalsOf Cases.burst) /\
  AntiBot.analyzeTimingPatterns Cases.burst = 0%Q.
Proof.
  assert (H1 : (2 <= length Cases.burst)%nat) by (simpl; lia).
  assert (H2 : Forall (fun i => i = 10) (intervalsOf Cases.burst))
    by (repeat constructor).
  split; [exact H1|]. split; [exact H2|].
  exact (proj1 (regular_arrivals_timing Cases.burst 10 H1 H2)).
Defined.

Lemma legacy_regular_arrivals_not_human_witness :
  (2 <= length Cases.burst)%nat /\
  Forall (fun i => i = 10) (intervalsOf Cases.burst) /\
  Part001.humanLike (Part001.analyzeBehaviorPatterns Cases.burst) = false.
Proof.
  assert (H1 : (2 <= length Cases.burst)%nat) by (simpl; lia).
  assert (H2 : Forall (fun i => i = 10) (intervalsOf Cases.burst))
    by (repeat constructor).
  split; [exact H1|]. split; [exact H2|].
  exact (proj2 (proj2 (legacy_regular_arrivals_not_human Cases.burst 10 H1 H2))).
Defined.

Lemma legacy_second_request_flagged_witness :
  (oid (Cases.legacyVisit 1) ∉ Part001.legitimateClients (fst Cases.legacyFirst)) /\
  Part001.valid (Part001.validateBrowserEnvironment (Cases.legacyVisit 1)) = true /\
  Part001.behaviorCache (fst Cases.legacyFirst)
    !! Part001.generateFingerprint Samples.digest (Cases.legacyVisit 1)
  = Some Cases.legacyProfile /\
  prune 2000 (Part001.patterns Cases.legacyProfile)
  = [Part001.newEvent 1000 (Cases.legacyVisit 0)] /\
  exists st' v,
    Part001.detectBot Samples.digest 2000 (Cases.legacyVisit 1) (fst Cases.legacyFirst)
    = (st', v) /\
    Part001.isBot v = true /\
    Part001.reason v = Some suspicious_behavior.
Proof.
  assert (H1 : oid (Cases.legacyVisit 1)
               ∉ Part001.legitimateClients (fst Cases.legacyFirst)).
  { apply (proj1 (bool_decide_eq_false _)). vm_compute. reflexivity. }
  assert (H2 : Part001.valid (Part001.validateBrowserEnvironment (Cases.legacyVisit 1))
               = true) by (vm_compute; reflexivity).
  assert (H3 : Part001.behaviorCache (fst Cases.legacyFirst)
                 !! Part001.generateFingerprint Samples.digest (Cases.legacyVisit 1)
               = Some Cases.legacyProfile) by (vm_compute; reflexivity).
  assert (H4 : prune 2000 (Part001.patterns Cases.legacyProfile)
               = [Part001.newEvent 1000 (Cases.legacyVisit 0)])
    by (vm_compute; reflexivity).
  split; [exact H1|]. split; [exact H2|]. split; [exact H3|]. split; [exact H4|].
  destruct (legacy_second_request_flagged Samples.digest 2000 (Cases.legacyVisit 1)
              (fst Cases.legacyFirst) Cases.legacyProfile _ H1 H2 H3 H4)
    as [st' [v [Hrun [Hbot [Hreason _]]]]].
  exists st', v. auto.
Defined.

Lemma repeated_path_navigation_zero_witness :
  (3 <= length Cases.burst)%nat /\
  Forall (fun e => ev_path e = "/check-ip") Cases.burst /\
  includes "/" "/check-ip" = false /\
  (AntiBot.calculateRepetition (map ev_path Cases.burst) == 1)%Q.
Proof.
  assert (H1 : (3 <= length Cases.burst)%nat) by (simpl; lia).
  assert (H2 : Forall (fun e => ev_path e = "/check-ip") Cases.burst)
    by (repeat constructor).
  assert (H3 : includes "/" "/check-ip" = false) by reflexivity.
  split; [exact H1|]. split; [exact H2|]. split; [exact H3|].
  exact (proj1 (repeated_path_navigation_zero Cases.burst "/check-ip" H1 H2 H3)).
Defined.

Lemma sweep_absorbs_earlier_sweep_witness :
  300000 <= 600000 /\
  Part001.sweep 600000 (Part001.sweep 300000 Samples.agedCache)
  = Part001.sweep 600000 Samples.agedCache.
Proof.
  assert (H : 300000 <= 600000) by lia.
  split; [exact H|].
  exact (proj1 (sweep_absorbs_earlier_sweep 300000 600000 Samples.agedCache H)).
Defined.

Lemma sweep_invisible_to_analysis_witness :
  Part001.reachable 240000 Samples.agedCache /\
  600000 <= 700000 /\
  snd (Part001.analyze 700000 (Samples.visit 3 "/") "client"
         (Part001.sweep 600000 Samples.agedCache))
  = snd (Part001.analyze 700000 (Samples.visit 3 "/") "client" Samples.agedCache).
Proof.
  assert (H : 600000 <= 700000) by lia.
  split; [exact aged_cache_reachable|]. split; [exact H|].
  exact (proj1 (sweep_invisible_to_analysis 240000 600000 700000
                  (Samples.visit 3 "/") "client" Samples.agedCache
                  aged_cache_reachable H)).
Defined.

Lemma legacy_profile_invariant_witness :
  Part001.reachable 240000 Samples.agedCache /\
  Samples.agedCache !! "client" = Some Samples.agedProfile /\
  Part001.lastSeen Samples.agedProfile <= 240000.
Proof.
  assert (H : Samples.agedCache !! "client" = Some Samples.agedProfile)
    by (vm_compute; reflexivity).
  split; [exact aged_cache_reachable|]. split; [exact H|].
  exact (proj1 (proj2 (legacy_profile_invariant 240000 Samples.agedCache
                         aged_cache_reachable "client" Samples.agedProfile H))).
Defined.

Lemma cache_after_two_reachable : AntiBot.reachable 1010 Samples.cacheAfterTwo.
Proof.
  unfold Samples.cacheAfterTwo.
  apply (AntiBot.reach_analyze 1000); [|lia].
  apply (AntiBot.reach_analyze 1000); [|lia].
  apply AntiBot.reach_start.
Defined.

Lemma store_stays_empty_witness :
  AntiBot.reachable 1010 Samples.cacheAfterTwo /\
  Samples.cacheAfterTwo = ∅.
Proof.
  split; [exact cache_after_two_reachable|].
  exact (proj1 (store_stays_empty 1010 Samples.cacheAfterTwo
                  cache_after_two_reachable)).
Defined.

Lemma normal_flow_seven_in_ten_witness :
  Cases.pagePaths <> [] /\
  (Part001.hasNormalNavigationFlow Cases.pagePaths = true <->
   7 * Z.of_nat (length Cases.pagePaths)
   <= 10 * Z.of_nat (length (List.filter Measures.recognised Cases.pagePaths))).
Proof.
  assert (H : Cases.pagePaths <> []) by discriminate.
  split; [exact H|].
  exact (normal_flow_seven_in_ten Cases.pagePaths H).
Defined.

Lemma legacy_admission_rule_witness :
  (oid (Cases.legacyVisit 0) ∉ Part001.legitimateClients Samples.emptyLegacyState) /\
  Part001.detectBot Samples.digest 1000 (Cases.legacyVisit 0) Samples.emptyLegacyState
  = (fst Cases.legacyFirst, snd Cases.legacyFirst) /\
  (0 <= Part001.v_confidence (snd Cases.legacyFirst) <= 1)%Q.
Proof.
  assert (H1 : oid (Cases.legacyVisit 0)
               ∉ Part001.legitimateClients Samples.emptyLegacyState)
    by (simpl; apply not_elem_of_empty).
  assert (H2 : Part001.detectBot Samples.digest 1000 (Cases.legacyVisit 0)
                 Samples.emptyLegacyState
               = (fst Cases.legacyFirst, snd Cases.legacyFirst))
    by (apply surjective_pairing).
  split; [exact H1|]. split; [exact H2|].
  exact (proj2 (proj2 (proj2 (legacy_admission_rule Samples.digest 1000 _ _ _ _
                                H1 H2)))).
Defined.


Lemma repetition_is_a_fraction_witness :
  (3 <= length Cases.pagePaths)%nat /\
  0 <= AntiBot.repetitionsOf Cases.pagePaths
    <= Z.of_nat (length Cases.pagePaths) - 2.
Proof.
  assert (H : (3 <= length Cases.pagePaths)%nat) by (simpl; lia).
  split; [exact H|].
  exact (proj1 (repetition_is_a_fraction Cases.pagePaths H)).
Defined.
